(** * Sri Travels booking backend: access control and route handlers

    A shallow embedding of [server.js]: the three Mongoose schemas, the two
    Express middlewares ([authenticateToken], [authorizeRoles]), the fifteen
    routes with their handlers, and the properties of the access-control
    layer and of the handlers that the specification states.

    Conventions of the embedding.
    - A collection is the list of its documents in insertion order. The
      unique index the User schema asks for on [phoneNumber] is the
      database's business and is not assumed: inserts never consult it.
    - An [async] handler is a state-passing computation over the [World]
      (store and clock) whose result is either resolved or rejected; an
      [await]ed store call may reject, following a script of outcomes kept
      in the world. Requests are handled one at a time.
    - [req.headers] and [req.cookies] are finite maps from names to strings.
      The route a request matches comes with its parameters, query and body
      already parsed: the string fields the handlers destructure are
      strings, identifiers are [ObjectId]s, dates and the paging numbers
      ([page], [limit]) are integers, and a path the schemas declare as
      [Number] ([amount], [capacity]) holds an IEEE 754 double, as every
      JavaScript number is: [Number] below, with the processor's addition.
      A vehicle body is read for the paths of the schema, each absent or
      holding a value of its type; a null, an [_id] or an update operator
      in a body is outside the model.
    - [console.log] calls are left out.
    - The libraries the server calls (bcryptjs, jsonwebtoken, the query
      engine behind the paginated user listing) are an interface,
      [Collaborators], of which the development assumes nothing. *)

From Stdlib Require Import ZArith Ascii String List Floats.
From stdpp Require Import base option strings list gmap.

Local Open Scope Z_scope.
Local Open Scope string_scope.

(** ** Schemas *)

Definition ObjectId := N.
Bind Scope N_scope with ObjectId.

(** A JavaScript number: a binary64 double, NaN and the two zeros included. *)
Definition Number := float.
Bind Scope float_scope with Number.

Module User.
Record t := mk {
  _id : ObjectId;
  name : string;
  phoneNumber : string;
  password : string;
  role : string;
  isActive : bool;
  createdAt : Z }.

Definition role_enum : list string := ["customer"; "admin"; "director"; "driver"].

Definition set_isActive (b : bool) (u : t) : t :=
  mk (_id u) (name u) (phoneNumber u) (password u) (role u) b (createdAt u).
End User.

Module Vehicle.
Record t := mk {
  _id : ObjectId;
  vehicleNumber : string;
  type : string;
  capacity : option Number;
  driverId : option ObjectId;
  status : string;
  createdAt : Z }.

Definition status_enum : list string := ["available"; "booked"; "maintenance"].

(** The paths of the schema as a request body carries them, every one
    optional ([new Vehicle(req.body)], [findByIdAndUpdate(id, req.body)]):
    [None] is a key the body does not have. *)
Record fields := mkFields {
  f_vehicleNumber : option string;
  f_type : option string;
  f_capacity : option Number;
  f_driverId : option ObjectId;
  f_status : option string;
  f_createdAt : option Z }.
End Vehicle.

Module Booking.
Record t := mk {
  _id : ObjectId;
  customerId : ObjectId;
  customerName : option string;
  customerPhone : option string;
  vehicleId : option ObjectId;
  vehicleType : option string;
  fromLocation : option string;
  toLocation : option string;
  travelDate : option Z;
  amount : option Number;
  status : string;
  createdAt : Z }.

Definition status_enum : list string := ["pending"; "approved"; "completed"; "cancelled"].

Definition set_status (s : string) (b : t) : t :=
  mk (_id b) (customerId b) (customerName b) (customerPhone b) (vehicleId b)
     (vehicleType b) (fromLocation b) (toLocation b) (travelDate b) (amount b)
     s (createdAt b).

(** The body of [POST /book]. *)
Record fields := mkFields {
  f_vehicleId : option ObjectId;
  f_vehicleType : option string;
  f_fromLocation : option string;
  f_toLocation : option string;
  f_travelDate : option Z;
  f_amount : option Number }.
End Booking.

(** ** The world: store, clock, and the script of store outcomes *)

Record World := mkWorld {
  users : list User.t;
  vehicles : list Vehicle.t;
  bookings : list Booking.t;
  next_id : N;                     (* supply of fresh [_id]s and salts *)
  clock : Z;                       (* [Date.now()] *)
  faults : list (option string) }. (* outcome of the coming store calls:
                                      [Some m] rejects with message [m] *)

Definition with_users (us : list User.t) (w : World) : World :=
  mkWorld us (vehicles w) (bookings w) (next_id w) (clock w) (faults w).
Definition with_vehicles (vs : list Vehicle.t) (w : World) : World :=
  mkWorld (users w) vs (bookings w) (next_id w) (clock w) (faults w).
Definition with_bookings (bs : list Booking.t) (w : World) : World :=
  mkWorld (users w) (vehicles w) bs (next_id w) (clock w) (faults w).
Definition with_next_id (n : N) (w : World) : World :=
  mkWorld (users w) (vehicles w) (bookings w) n (clock w) (faults w).
Definition with_faults (fs : list (option string)) (w : World) : World :=
  mkWorld (users w) (vehicles w) (bookings w) (next_id w) (clock w) fs.

(** ** Errors and the [async] monad *)

Inductive JsError :=
| StoreError (msg : string)
| ValidationError (model : string) (errors : list (string * string))
| TypeError (msg : string).

(** [err.message] *)
Definition message (e : JsError) : string :=
  match e with
  | StoreError m => m
  | ValidationError model errors =>
      model ++ " validation failed: "
        ++ String.concat ", " (map (fun pe => pe.1 ++ ": " ++ pe.2) errors)
  | TypeError m => m
  end.

Inductive Result (A : Type) :=
| Resolved (a : A)
| Rejected (e : JsError).
Arguments Resolved {A} a.
Arguments Rejected {A} e.

Definition Async (A : Type) : Type := World -> World * Result A.

Definition ret {A} (a : A) : Async A := fun w => (w, Resolved a).
Definition throw {A} (e : JsError) : Async A := fun w => (w, Rejected e).
Definition bind {A B} (m : Async A) (k : A -> Async B) : Async B := fun w =>
  match m w with
  | (w', Resolved a) => k a w'
  | (w', Rejected e) => (w', Rejected e)
  end.
(** [try { m } catch (err) { h err }] *)
Definition try_catch {A} (m : Async A) (h : JsError -> Async A) : Async A := fun w =>
  match m w with
  | (w', Resolved a) => (w', Resolved a)
  | (w', Rejected e) => h e w'
  end.

Notation "x <- m ;; k" := (bind m (fun x => k))
  (at level 100, m at next level, right associativity).

(** An awaited call to the store: the head of the script decides whether it
    rejects; an exhausted script means the store answers. *)
Definition store_call {A} (op : World -> World * Result A) : Async A := fun w =>
  match faults w with
  | Some m :: fs => (with_faults fs w, Rejected (StoreError m))
  | None :: fs => op (with_faults fs w)
  | [] => op w
  end.

(** ** Mongoose models over the collections *)

Definition validation_errors := list (string * string).

Definition required (path value : string) : validation_errors :=
  if bool_decide (value = "") then [(path, "Path `" ++ path ++ "` is required.")] else [].

Definition enum (path : string) (allowed : list string) (value : string) : validation_errors :=
  if bool_decide (value ∈ allowed) then []
  else [(path, "`" ++ value ++ "` is not a valid enum value for path `" ++ path ++ "`.")].

(** A document's [_id] is drawn when it is constructed. *)
Definition fresh : Async N := fun w =>
  (with_next_id (N.succ (next_id w)) w, Resolved (next_id w)).

Definition Date_now : Async Z := fun w => (w, Resolved (clock w)).

Fixpoint update_first {A} (p : A -> bool) (f : A -> A) (l : list A) : list A :=
  match l with
  | [] => []
  | x :: l' => if p x then f x :: l' else x :: update_first p f l'
  end.

(** *** User *)

Definition User_validate (u : User.t) : validation_errors :=
  (required "name" (User.name u) ++ required "phoneNumber" (User.phoneNumber u)
   ++ required "password" (User.password u) ++ enum "role" User.role_enum (User.role u))%list.

(** [new User({ name, phoneNumber, password, role })]: [isActive] and
    [createdAt] take their defaults. *)
Definition new_User (name phoneNumber password role : string) : Async User.t :=
  i <- fresh ;;
  now <- Date_now ;;
  ret (User.mk i name phoneNumber password role true now).

(** [doc.save()] on a document made with [new]: validation, then the insert. *)
Definition User_save_new (u : User.t) : Async unit :=
  match User_validate u with
  | [] => store_call (fun w => (with_users (users w ++ [u])%list w, Resolved tt))
  | errors => throw (ValidationError "User" errors)
  end.

(** [doc.save()] on a loaded document whose modified path is [isActive]:
    the update of that path on the stored document of the same [_id]. *)
Definition User_save_isActive (u : User.t) : Async unit :=
  store_call (fun w =>
    (with_users (update_first (fun x => bool_decide (User._id x = User._id u))
                              (User.set_isActive (User.isActive u)) (users w)) w,
     Resolved tt)).

(** The first document that matches [{ phoneNumber }], and the one of a
    given [_id]. *)
Definition User_with_phone (phoneNumber : string) (us : list User.t) : option User.t :=
  List.find (fun u => bool_decide (User.phoneNumber u = phoneNumber)) us.

Definition User_with_id (id : ObjectId) (us : list User.t) : option User.t :=
  List.find (fun u => bool_decide (User._id u = id)) us.

Definition User_findOne (phoneNumber : string) : Async (option User.t) :=
  store_call (fun w => (w, Resolved (User_with_phone phoneNumber (users w)))).

Definition User_findById (id : ObjectId) : Async (option User.t) :=
  store_call (fun w => (w, Resolved (User_with_id id (users w)))).

(** *** Booking *)

Definition new_Booking (customerId : ObjectId) (customerName customerPhone : option string)
    (f : Booking.fields) : Async Booking.t :=
  i <- fresh ;;
  now <- Date_now ;;
  ret (Booking.mk i customerId customerName customerPhone
         (Booking.f_vehicleId f) (Booking.f_vehicleType f) (Booking.f_fromLocation f)
         (Booking.f_toLocation f) (Booking.f_travelDate f) (Booking.f_amount f)
         "pending" now).

Definition Booking_validate (b : Booking.t) : validation_errors :=
  enum "status" Booking.status_enum (Booking.status b).

Definition Booking_save_new (b : Booking.t) : Async unit :=
  match Booking_validate b with
  | [] => store_call (fun w => (with_bookings (bookings w ++ [b])%list w, Resolved tt))
  | errors => throw (ValidationError "Booking" errors)
  end.

(** [Booking.find(filter)]; [Booking.find()] is [Booking_find (fun _ => true)]. *)
Definition Booking_find (p : Booking.t -> bool) : Async (list Booking.t) :=
  store_call (fun w => (w, Resolved (List.filter p (bookings w)))).

(** [Booking.findByIdAndUpdate(id, { status })]: no validators run on an
    update; it resolves to the document as it was. *)
Definition Booking_findByIdAndUpdate (id : ObjectId) (status : string)
    : Async (option Booking.t) :=
  store_call (fun w =>
    let p := fun b => bool_decide (Booking._id b = id) in
    (with_bookings (update_first p (Booking.set_status status) (bookings w)) w,
     Resolved (List.find p (bookings w)))).

(** *** Vehicle *)

(** [new Vehicle(req.body)]: the defaults of the schema ([status],
    [createdAt]) fill the paths the body leaves out; an absent required
    string is carried as the empty string, which [required] rejects just
    the same. *)
Definition new_Vehicle (f : Vehicle.fields) : Async Vehicle.t :=
  i <- fresh ;;
  now <- Date_now ;;
  ret (Vehicle.mk i (default "" (Vehicle.f_vehicleNumber f)) (default "" (Vehicle.f_type f))
         (Vehicle.f_capacity f) (Vehicle.f_driverId f)
         (default "available" (Vehicle.f_status f))
         (default now (Vehicle.f_createdAt f))).

(** Mongoose reports the required paths a new document lacks from the
    last declared to the first, and then the paths that were set. *)
Definition Vehicle_validate (v : Vehicle.t) : validation_errors :=
  (required "type" (Vehicle.type v) ++ required "vehicleNumber" (Vehicle.vehicleNumber v)
   ++ enum "status" Vehicle.status_enum (Vehicle.status v))%list.

Definition Vehicle_save_new (v : Vehicle.t) : Async unit :=
  match Vehicle_validate v with
  | [] => store_call (fun w => (with_vehicles (vehicles w ++ [v])%list w, Resolved tt))
  | errors => throw (ValidationError "Vehicle" errors)
  end.

Definition Vehicle_find : Async (list Vehicle.t) :=
  store_call (fun w => (w, Resolved (vehicles w))).

Definition or_else {A} (new old : option A) : option A :=
  match new with Some _ => new | None => old end.

(** The update [findByIdAndUpdate] makes of a body: each path the body
    carries is set, [createdAt] like the others. *)
Definition Vehicle_set (f : Vehicle.fields) (v : Vehicle.t) : Vehicle.t :=
  Vehicle.mk (Vehicle._id v)
    (default (Vehicle.vehicleNumber v) (Vehicle.f_vehicleNumber f))
    (default (Vehicle.type v) (Vehicle.f_type f))
    (or_else (Vehicle.f_capacity f) (Vehicle.capacity v))
    (or_else (Vehicle.f_driverId f) (Vehicle.driverId v))
    (default (Vehicle.status v) (Vehicle.f_status f))
    (default (Vehicle.createdAt v) (Vehicle.f_createdAt f)).

Definition Vehicle_findByIdAndUpdate (id : ObjectId) (f : Vehicle.fields)
    : Async (option Vehicle.t) :=
  store_call (fun w =>
    let p := fun v => bool_decide (Vehicle._id v = id) in
    (with_vehicles (update_first p (Vehicle_set f) (vehicles w)) w,
     Resolved (List.find p (vehicles w)))).

(** ** HTTP: requests, responses, middleware *)

Module Identity.
(** The claims of a token, [{ id, role }], as [req.user] carries them. *)
Record t := mk { id : ObjectId; role : string }.
End Identity.

(** The route a request matches, with its parsed [req.params], [req.query]
    and [req.body]. *)
Inductive Endpoint :=
| register (name phoneNumber password : string)
| login (phoneNumber password : string)
| book (body : Booking.fields)
| my_bookings
| admin_bookings
| admin_update_status (id : ObjectId) (status : string)
| admin_search (phone : string)
| director_create_admin (name phoneNumber password : string)
| director_add_vehicle (body : Vehicle.fields)
| director_create_driver (name phoneNumber password : string)
| director_revenue
| director_update_vehicle (id : ObjectId) (body : Vehicle.fields)
| director_all_users (page limit : option Z) (search role : option string)
| director_toggle_user (id : ObjectId)
| director_vehicles.

Record Request := mkRequest {
  endpoint : Endpoint;
  headers : gmap string string;
  cookies : gmap string string;
  user : option Identity.t }.

Definition with_user (u : Identity.t) (req : Request) : Request :=
  mkRequest (endpoint req) (headers req) (cookies req) (Some u).

(** The values the handlers hand to [res.json], before they are written
    out: a number is the double the handler computed. *)
Inductive Json :=
| JError (error : string)
| JMessage (message : string)
| JLogin (message token : string) (user : User.t)
| JBookings (bookings : list Booking.t)
| JVehicles (vehicles : list Vehicle.t)
| JRevenue (totalCompletedTrips : nat) (totalRevenue : Number)
| JUsers (users : list User.t) (totalPages : option Z) (currentPage : Z).

Record Response := mkResponse { statusCode : Z; body : Json }.

(** [res.status(c).json(b)] and [res.json(b)] *)
Definition res_status_json (c : Z) (b : Json) : Response := mkResponse c b.
Definition res_json (b : Json) : Response := mkResponse 200 b.

(** What a middleware does with a request: answer it, or call [next()]. *)
Inductive Step :=
| Respond (r : Response)
| Next (req : Request).

Definition Middleware := Request -> Async Step.
Definition Handler := Request -> Async Response.

(** ** The libraries the server calls *)

Class Collaborators := {
  (** [bcrypt.hash(password, rounds)], with the salt it draws *)
  bcrypt_hash : string -> Z -> N -> string;
  (** [bcrypt.compare(password, hash)] *)
  bcrypt_compare : string -> string -> bool;
  (** [jwt.sign(payload, secret, { expiresIn })] at a given time *)
  jwt_sign : Identity.t -> string -> string -> Z -> string;
  (** [jwt.verify(token, secret)] at a given time: the decoded payload, or
      nothing when the token does not verify or has expired *)
  jwt_verify : string -> string -> Z -> option Identity.t;
  (** [User.find(query).skip(s).limit(l).sort({ createdAt: -1 })] and
      [User.countDocuments(query)], for the query built from [search] and
      [role] *)
  find_users : option string -> option string -> Z -> Z -> list User.t -> Result (list User.t);
  count_users : option string -> option string -> list User.t -> Z }.

(** ** JavaScript values the guards compute with *)

(** Truthiness of a value that is a string or [undefined]. *)
Definition truthy (v : option string) : bool :=
  match v with
  | Some s => negb (bool_decide (s = ""))
  | None => false
  end.

(** [a || b] and [a && b] *)
Definition js_or (a b : option string) : option string := if truthy a then a else b.
Definition js_and (a b : option string) : option string := if truthy a then b else a.

(** Truthiness of a number: false for 0, -0 and NaN, true otherwise. *)
Definition Number_truthy (a : Number) : bool :=
  negb ((a =? 0)%float || is_nan a).

(** [s.split(sep)] for a one-character separator. *)
Fixpoint split (sep : ascii) (s : string) : list string :=
  match s with
  | EmptyString => [EmptyString]
  | String c s' =>
      if bool_decide (c = sep) then EmptyString :: split sep s'
      else match split sep s' with
           | x :: xs => String c x :: xs
           | [] => [String c EmptyString]
           end
  end.

Definition SECRET : string := "SRI_TRAVELS_SECRET".

Section Server.
Context `{Collaborators}.

(** ** Auth middleware *)

(** The value of [token] in [authenticateToken]. *)
Definition locate_token (req : Request) : option string :=
  js_or (cookies req !! "jwt_token")
        (js_and (headers req !! "authorization")
                (headers req !! "authorization" ≫= fun h => split " " h !! 1%nat)).

Definition authenticateToken : Middleware := fun req =>
  let authHeader := headers req !! "authorization" in
  if negb (truthy authHeader) then
    ret (Respond (res_status_json 401 (JError "Invalid JWT")))
  else
    let token := locate_token req in
    match (if truthy token then token else None) with
    | None => ret (Respond (res_status_json 401 (JError "Token missing")))
    | Some token =>
        now <- Date_now ;;
        match jwt_verify token SECRET now with
        | None => ret (Respond (res_status_json 403 (JError "Token Expired")))
        | Some user => ret (Next (with_user user req))
        end
    end.

Definition authorizeRoles (roles : list string) : Middleware := fun req =>
  match user req with
  | None => throw (TypeError "Cannot read properties of undefined (reading 'role')")
  | Some u =>
      if negb (bool_decide (Identity.role u ∈ roles)) then
        ret (Respond (res_status_json 403 (JError "Access Denied")))
      else ret (Next req)
  end.

(** ** Handlers *)

Definition bcrypt_hash_async (password : string) (rounds : Z) : Async string := fun w =>
  (with_next_id (N.succ (next_id w)) w, Resolved (bcrypt_hash password rounds (next_id w))).

(** [catch (err) { res.status(500).json({ error: err.message }) }] *)
Definition internal_error (err : JsError) : Async Response :=
  ret (res_status_json 500 (JError (message err))).

Definition post_register (name phoneNumber password : string) : Handler := fun _ =>
  try_catch
    (existing <- User_findOne phoneNumber ;;
     match existing with
     | Some _ => ret (res_status_json 400 (JError "User Exists"))
     | None =>
         hashedPassword <- bcrypt_hash_async password 10 ;;
         newUser <- new_User name phoneNumber hashedPassword "customer" ;;
         _ <- User_save_new newUser ;;
         ret (res_status_json 201 (JMessage "Customer Registered"))
     end)
    internal_error.

Definition post_login (phoneNumber password : string) : Handler := fun _ =>
  user <- User_findOne phoneNumber ;;
  match user with
  | None => ret (res_status_json 400 (JError "Invalid User"))
  | Some user =>
      let isMatch := bcrypt_compare password (User.password user) in
      if negb isMatch then ret (res_status_json 400 (JError "Invalid Password"))
      else
        now <- Date_now ;;
        let token :=
          jwt_sign (Identity.mk (User._id user) (User.role user)) SECRET "7d" now in
        ret (res_json (JLogin "Login Success" token user))
  end.

(** [req.user.id] *)
Definition req_user_id (req : Request) : Async ObjectId :=
  match user req with
  | None => throw (TypeError "Cannot read properties of undefined (reading 'id')")
  | Some u => ret (Identity.id u)
  end.

Definition post_book (body : Booking.fields) : Handler := fun req =>
  try_catch
    (id <- req_user_id req ;;
     user <- User_findById id ;;
     match user with
     | None => throw (TypeError "Cannot read properties of null (reading '_id')")
     | Some user =>
         booking <- new_Booking (User._id user) (Some (User.name user))
                      (Some (User.phoneNumber user)) body ;;
         _ <- Booking_save_new booking ;;
         ret (res_status_json 201 (JMessage "Booking Created"))
     end)
    internal_error.

Definition get_my_bookings : Handler := fun req =>
  id <- req_user_id req ;;
  bookings <- Booking_find (fun b => bool_decide (Booking.customerId b = id)) ;;
  ret (res_json (JBookings bookings)).

Definition get_admin_bookings : Handler := fun _ =>
  bookings <- Booking_find (fun _ => true) ;;
  ret (res_json (JBookings bookings)).

Definition put_admin_update_status (id : ObjectId) (status : string) : Handler := fun _ =>
  _ <- Booking_findByIdAndUpdate id status ;;
  ret (res_json (JMessage "Status Updated")).

Definition get_admin_search (phone : string) : Handler := fun _ =>
  bookings <- Booking_find (fun b => bool_decide (Booking.customerPhone b = Some phone)) ;;
  ret (res_json (JBookings bookings)).

Definition post_director_create_admin (name phoneNumber password : string) : Handler := fun _ =>
  existing <- User_findOne phoneNumber ;;
  match existing with
  | Some _ => ret (res_status_json 400 (JError "User already exists"))
  | None =>
      hashedPassword <- bcrypt_hash_async password 10 ;;
      admin <- new_User name phoneNumber hashedPassword "admin" ;;
      _ <- User_save_new admin ;;
      ret (res_json (JMessage "Admin Created Successfully"))
  end.

Definition post_director_add_vehicle (body : Vehicle.fields) : Handler := fun _ =>
  vehicle <- new_Vehicle body ;;
  _ <- Vehicle_save_new vehicle ;;
  ret (res_json (JMessage "Vehicle Added")).

Definition post_director_create_driver (name phoneNumber password : string) : Handler := fun _ =>
  existing <- User_findOne phoneNumber ;;
  match existing with
  | Some _ => ret (res_status_json 400 (JError "User already exists"))
  | None =>
      hashedPassword <- bcrypt_hash_async password 10 ;;
      driver <- new_User name phoneNumber hashedPassword "driver" ;;
      _ <- User_save_new driver ;;
      ret (res_json (JMessage "Driver Created Successfully"))
  end.

(** [b.amount || 0] *)
Definition amount_or_0 (b : Booking.t) : Number :=
  match Booking.amount b with
  | Some a => if Number_truthy a then a else 0
  | None => 0
  end.

Definition get_director_revenue : Handler := fun _ =>
  bookings <- Booking_find (fun b => bool_decide (Booking.status b = "completed")) ;;
  let totalRevenue := fold_left (fun sum b => (sum + amount_or_0 b)%float) bookings 0%float in
  ret (res_json (JRevenue (length bookings) totalRevenue)).

Definition put_director_update_vehicle (id : ObjectId) (body : Vehicle.fields) : Handler :=
  fun _ =>
  _ <- Vehicle_findByIdAndUpdate id body ;;
  ret (res_json (JMessage "Vehicle Updated")).

(** [Math.ceil(a / b)] as JSON shows it: [null] when the quotient is not
    finite. *)
Definition Math_ceil_div (a b : Z) : option Z :=
  if (b =? 0)%Z then None else Some (- ((- a) / b)).

Definition get_director_all_users (page limit : option Z) (search role : option string)
    : Handler := fun _ =>
  try_catch
    (let page := default 1 page in
     let limit := default 25 limit in
     let search := if truthy search then search else None in
     let role := if truthy role then role else None in
     found <- store_call (fun w =>
                (w, find_users search role ((page - 1) * limit) limit (users w))) ;;
     totalUsers <- store_call (fun w => (w, Resolved (count_users search role (users w)))) ;;
     ret (res_json (JUsers found (Math_ceil_div totalUsers limit) page)))
    internal_error.

Definition put_director_toggle_user (id : ObjectId) : Handler := fun _ =>
  user <- User_findById id ;;
  match user with
  | None => throw (TypeError "Cannot read properties of null (reading 'isActive')")
  | Some user =>
      let user := User.set_isActive (negb (User.isActive user)) user in
      _ <- User_save_isActive user ;;
      ret (res_json (JMessage "User status updated"))
  end.

Definition get_director_vehicles : Handler := fun _ =>
  vehicles <- Vehicle_find ;;
  ret (res_json (JVehicles vehicles)).

(** ** Routes *)

(** The middlewares and the handler each route is registered with. *)
Definition route (ep : Endpoint) : list Middleware * Handler :=
  match ep with
  | register name phoneNumber password =>
      ([], post_register name phoneNumber password)
  | login phoneNumber password =>
      ([], post_login phoneNumber password)
  | book body =>
      ([authenticateToken; authorizeRoles ["customer"]], post_book body)
  | my_bookings =>
      ([authenticateToken; authorizeRoles ["customer"]], get_my_bookings)
  | admin_bookings =>
      ([authenticateToken; authorizeRoles ["admin"; "director"]], get_admin_bookings)
  | admin_update_status id status =>
      ([authenticateToken; authorizeRoles ["admin"; "director"]],
       put_admin_update_status id status)
  | admin_search phone =>
      ([authenticateToken; authorizeRoles ["admin"; "director"]], get_admin_search phone)
  | director_create_admin name phoneNumber password =>
      ([authenticateToken; authorizeRoles ["director"]],
       post_director_create_admin name phoneNumber password)
  | director_add_vehicle body =>
      ([authenticateToken; authorizeRoles ["director"]], post_director_add_vehicle body)
  | director_create_driver name phoneNumber password =>
      ([authenticateToken; authorizeRoles ["director"]],
       post_director_create_driver name phoneNumber password)
  | director_revenue =>
      ([authenticateToken; authorizeRoles ["director"]], get_director_revenue)
  | director_update_vehicle id body =>
      ([authenticateToken; authorizeRoles ["director"]], put_director_update_vehicle id body)
  | director_all_users page limit search role =>
      ([authenticateToken; authorizeRoles ["director"]],
       get_director_all_users page limit search role)
  | director_toggle_user id =>
      ([authenticateToken; authorizeRoles ["director"]], put_director_toggle_user id)
  | director_vehicles =>
      ([authenticateToken; authorizeRoles ["director"]], get_director_vehicles)
  end.

(** Express runs the middlewares in order; the first that answers ends the
    request, and the handler runs on the request the last [next()] passed on. *)
Fixpoint run (ms : list Middleware) (h : Handler) (req : Request) : Async Response :=
  match ms with
  | [] => h req
  | m :: ms' =>
      step <- m req ;;
      match step with
      | Respond r => ret r
      | Next req' => run ms' h req'
      end
  end.

Definition app (req : Request) : Async Response :=
  run (route (endpoint req)).1 (route (endpoint req)).2 req.

(** The world after the server has handled a sequence of requests. *)
Fixpoint serve (reqs : list Request) (w : World) : World :=
  match reqs with
  | [] => w
  | req :: reqs' => serve reqs' (app req w).1
  end.

End Server.

(** ** The specification's side *)

(** The role column of the specification's route table (section 4.3);
    [None] where it says no authentication is required. *)
Definition section_4_3_roles (ep : Endpoint) : option (list string) :=
  match ep with
  | register _ _ _ | login _ _ => None
  | book _ | my_bookings => Some ["customer"]
  | admin_bookings | admin_update_status _ _ | admin_search _ => Some ["admin"; "director"]
  | director_create_admin _ _ _ | director_add_vehicle _ | director_create_driver _ _ _
  | director_revenue | director_update_vehicle _ _ | director_all_users _ _ _ _
  | director_toggle_user _ | director_vehicles => Some ["director"]
  end.



(** What the schema's [Number] makes of the stored amounts: the cast
    Mongoose applies to a path of that type refuses NaN, so an amount is
    absent or a number. *)
Definition amounts_are_numbers (bs : list Booking.t) : Prop :=
  Forall (fun b => Booking.amount b <> Some nan) bs.


(** A phone number identifies at most one user. *)
Definition unique_phones (us : list User.t) : Prop :=
  forall i j u1 u2,
    us !! i = Some u1 -> us !! j = Some u2 ->
    User.phoneNumber u1 = User.phoneNumber u2 -> i = j.

(** ** Frames *)

(** A computation keeps a component [f] of the world when running it, to
    whatever result, leaves [f] as it was. *)
Definition keeps {A B} (f : World -> B) (m : Async A) : Prop :=
  forall w, f (m w).1 = f w.

(** The column of phone numbers of the Users collection. *)
Definition phones (w : World) : list string := map User.phoneNumber (users w).

(** What a handler may do to the phone column: leave it, or append a
    number that a lookup in the collection does not find. *)
Definition phones_step (w w' : World) : Prop :=
  phones w' = phones w
  \/ exists p, User_with_phone p (users w) = None /\ phones w' = (phones w ++ [p])%list.

(** The handlers whose body is wrapped in [try { ... } catch (err) { ... }]. *)
Definition catches (ep : Endpoint) : bool :=
  match ep with
  | register _ _ _ | book _ | director_all_users _ _ _ _ => true
  | _ => false
  end.

(** ** A small instance, for the examples *)

Module Demo.

Definition alice : Identity.t := Identity.mk 7 "customer".
Definition bob : Identity.t := Identity.mk 8 "customer".
Definition dana : Identity.t := Identity.mk 1 "director".

(** A toy token service that knows three tokens, and a toy hasher. *)
Definition collaborators : Collaborators := {|
  bcrypt_hash := fun password _ _ => "hash:" ++ password;
  bcrypt_compare := fun password hash => bool_decide (hash = "hash:" ++ password);
  jwt_sign := fun u _ _ _ => "token-" ++ Identity.role u;
  jwt_verify := fun token secret _ =>
    if bool_decide (secret = SECRET) then
      if bool_decide (token = "alice-token") then Some alice
      else if bool_decide (token = "bob-token") then Some bob
      else if bool_decide (token = "dana-token") then Some dana
      else None
    else None;
  find_users := fun _ _ _ _ us => Resolved us;
  count_users := fun _ _ us => Z.of_nat (length us) |}.

Definition user_dana : User.t :=
  User.mk 1 "Dana" "9000000001" "hash:dana-pw" "director" true 0.
Definition user_alice : User.t :=
  User.mk 7 "Alice" "9990001111" "hash:alice-pw" "customer" true 10.
Definition user_bob : User.t :=
  User.mk 8 "Bob" "9990002222" "hash:bob-pw" "customer" true 20.

Definition trip (i customer : ObjectId) (amount : option Number) (status : string) : Booking.t :=
  Booking.mk i customer None None None (Some "Car") (Some "Guntur") (Some "Vijayawada")
    None amount status 30.

Definition world : World := {|
  users := [user_dana; user_alice; user_bob];
  vehicles := [];
  bookings := [trip 100 7 (Some 1500%float) "completed"; trip 101 8 (Some 900%float) "pending";
               trip 102 7 None "completed"; trip 103 8 (Some 2500%float) "completed"];
  next_id := 200;
  clock := 1000;
  faults := [] |}.

(** The same world with the store about to reject its next call. *)
Definition world_store_down : World := with_faults [Some "connection lost"] world.

Definition bearer (ep : Endpoint) (token : string) : Request := {|
  endpoint := ep;
  headers := {[ "authorization" := "Bearer " ++ token ]};
  cookies := ∅;
  user := None |}.

Definition cookie_only (ep : Endpoint) (token : string) : Request := {|
  endpoint := ep;
  headers := ∅;
  cookies := {[ "jwt_token" := token ]};
  user := None |}.

Definition cookie_and_header (ep : Endpoint) (cookie header : string) : Request := {|
  endpoint := ep;
  headers := {[ "authorization" := header ]};
  cookies := {[ "jwt_token" := cookie ]};
  user := None |}.

Definition anonymous (ep : Endpoint) : Request := {|
  endpoint := ep; headers := ∅; cookies := ∅; user := None |}.

End Demo.

(** ** Further vocabulary for the properties of the handlers *)

(** The four answers a guard can give. *)
Definition guard_answers : list Response :=
  [ res_status_json 401 (JError "Invalid JWT");
    res_status_json 401 (JError "Token missing");
    res_status_json 403 (JError "Token Expired");
    res_status_json 403 (JError "Access Denied") ].

(** Every response a computation resolves to has its status among [codes]. *)
Definition answers_among (codes : list Z) (m : Async Response) : Prop :=
  forall w w' r, m w = (w', Resolved r) -> statusCode r ∈ codes.

(** The record one of the three creating handlers stores, and the world
    after it has: a salt and an [_id] drawn, one record more. *)
Definition created `{Collaborators} (name phone password role : string) (w : World)
    : User.t :=
  User.mk (N.succ (next_id w)) name phone (bcrypt_hash password 10 (next_id w)) role
          true (clock w).

Definition after_create (u : User.t) (w : World) : World :=
  with_users (users w ++ [u])%list (with_next_id (N.succ (N.succ (next_id w))) w).

(** The record [POST /book] stores for the user it found, and the world
    after it has. *)
Definition booked (customer : User.t) (body : Booking.fields) (w : World) : Booking.t :=
  Booking.mk (next_id w) (User._id customer) (Some (User.name customer))
    (Some (User.phoneNumber customer))
    (Booking.f_vehicleId body) (Booking.f_vehicleType body) (Booking.f_fromLocation body)
    (Booking.f_toLocation body) (Booking.f_travelDate body) (Booking.f_amount body)
    "pending" (clock w).

Definition after_book (b : Booking.t) (w : World) : World :=
  with_bookings (bookings w ++ [b])%list (with_next_id (N.succ (next_id w)) w).

(** The bookings of a collection that belong to a customer. *)
Definition own_bookings (id : ObjectId) (bs : list Booking.t) : list Booking.t :=
  List.filter (fun b => bool_decide (Booking.customerId b = id)) bs.

(** The Users collection after toggle-user has flipped the flag of the
    user it found. *)
Definition toggled (found : User.t) (us : list User.t) : list User.t :=
  update_first (fun x => bool_decide (User._id x = User._id found))
               (User.set_isActive (negb (User.isActive found))) us.

(** The endpoints whose handler writes to each collection. *)
Definition writes_users (ep : Endpoint) : bool :=
  match ep with
  | register _ _ _ | director_create_admin _ _ _ | director_create_driver _ _ _
  | director_toggle_user _ => true
  | _ => false
  end.

Definition writes_bookings (ep : Endpoint) : bool :=
  match ep with
  | book _ | admin_update_status _ _ => true
  | _ => false
  end.

Definition writes_vehicles (ep : Endpoint) : bool :=
  match ep with
  | director_add_vehicle _ | director_update_vehicle _ _ => true
  | _ => false
  end.

(** The roles the three creating handlers give. *)
Definition created_roles : list string := ["customer"; "admin"; "driver"].

(** The column of roles of the Users collection, and how many directors
    it holds. *)
Definition roles_of (w : World) : list string := map User.role (users w).

Definition directors (w : World) : nat :=
  length (List.filter (fun r => bool_decide (r = "director")) (roles_of w)).

(** What a handler may do to the role column: leave it, or append one of
    the roles the creating handlers give. *)
Definition roles_step (w w' : World) : Prop :=
  roles_of w' = roles_of w
  \/ exists r, r ∈ created_roles /\ roles_of w' = (roles_of w ++ [r])%list.

(** Whether a character occurs in a string. *)
Fixpoint contains (c : ascii) (s : string) : bool :=
  match s with
  | EmptyString => false
  | String x s' => bool_decide (x = c) || contains c s'
  end.

(** A second small instance: the collaborators of [Demo], with a driver's
    token besides and a signer that issues the tokens the verifier knows. *)
Definition dave : Identity.t := Identity.mk 9 "driver".

Definition issuing_collaborators : Collaborators := {|
  bcrypt_hash := @bcrypt_hash Demo.collaborators;
  bcrypt_compare := @bcrypt_compare Demo.collaborators;
  jwt_sign := fun u _ _ _ =>
    if bool_decide (Identity.id u = 7%N) then "alice-token"
    else if bool_decide (Identity.id u = 8%N) then "bob-token"
    else if bool_decide (Identity.id u = 9%N) then "dave-token"
    else "dana-token";
  jwt_verify := fun token secret now =>
    if bool_decide (token = "dave-token") then
      if bool_decide (secret = SECRET) then Some dave else None
    else @jwt_verify Demo.collaborators token secret now;
  find_users := @find_users Demo.collaborators;
  count_users := @count_users Demo.collaborators |}.

(** Bodies and requests for the examples. *)
Definition demo_trip : Booking.fields :=
  Booking.mkFields None (Some "Van") (Some "Guntur") (Some "Tenali") None (Some 700%float).

Definition basic_header (ep : Endpoint) (h : string) : Request := {|
  endpoint := ep; headers := {[ "authorization" := h ]}; cookies := ∅; user := None |}.

Definition demo_van : Vehicle.fields :=
  Vehicle.mkFields (Some "AP07-1234") (Some "Van") (Some 12%float) None None None.

(** A body whose status is none of the schema's, and that carries a
    creation time. *)
Definition demo_repaint : Vehicle.fields :=
  Vehicle.mkFields None None None None (Some "being repainted") (Some 5).

Definition demo_fleet : list Vehicle.t :=
  [Vehicle.mk 50 "AP07-1234" "Van" (Some 12%float) None "available" 40;
   Vehicle.mk 51 "AP09-4321" "Bus" (Some 40%float) (Some 9%N) "booked" 41].


Definition large_ledger : list Booking.t :=
  [Demo.trip 100 7 (Some 1%float) "completed"; Demo.trip 101 8 (Some 1%float) "pending";
   Demo.trip 102 7 (Some 9007199254740992%float) "completed"].

(** * Properties *)

Section Properties.
Context `{Collaborators}.

(** ** The monad and the middleware chain *)

Lemma bind_resolved {A B} (m : Async A) (k : A -> Async B) w w' a :
  m w = (w', Resolved a) -> bind m k w = k a w'.
Proof. intros E. unfold bind. now rewrite E. Qed.

Lemma bind_rejected {A B} (m : Async A) (k : A -> Async B) w w' e :
  m w = (w', Rejected e) -> bind m k w = (w', Rejected e).
Proof. intros E. unfold bind. now rewrite E. Qed.

Lemma store_call_answers {A} (op : World -> World * Result A) w :
  faults w = [] -> store_call op w = op w.
Proof. intros E. unfold store_call. now rewrite E. Qed.

Lemma store_call_rejects {A} (op : World -> World * Result A) w m fs :
  faults w = Some m :: fs -> store_call op w = (with_faults fs w, Rejected (StoreError m)).
Proof. intros E. unfold store_call. now rewrite E. Qed.

Lemma run_answered m ms h req w w' r :
  m req w = (w', Resolved (Respond r)) -> run (m :: ms) h req w = (w', Resolved r).
Proof. intros E. cbn [run]. now rewrite (bind_resolved _ _ _ _ _ E). Qed.

Lemma run_next m ms h req w w' req' :
  m req w = (w', Resolved (Next req')) -> run (m :: ms) h req w = run ms h req' w'.
Proof. intros E. cbn [run]. now rewrite (bind_resolved _ _ _ _ _ E). Qed.

(** ** The authentication guard, case by case *)

Lemma authenticateToken_no_header req w :
  truthy (headers req !! "authorization") = false ->
  authenticateToken req w
  = (w, Resolved (Respond (res_status_json 401 (JError "Invalid JWT")))).
Proof. intros E. unfold authenticateToken. now rewrite E. Qed.

Lemma authenticateToken_no_token req w :
  truthy (headers req !! "authorization") = true ->
  truthy (locate_token req) = false ->
  authenticateToken req w
  = (w, Resolved (Respond (res_status_json 401 (JError "Token missing")))).
Proof. intros E1 E2. unfold authenticateToken. now rewrite E1, E2. Qed.

Lemma authenticateToken_token req w token :
  truthy (headers req !! "authorization") = true ->
  locate_token req = Some token -> token <> "" ->
  authenticateToken req w
  = (w, Resolved match jwt_verify token SECRET (clock w) with
                 | None => Respond (res_status_json 403 (JError "Token Expired"))
                 | Some u => Next (with_user u req)
                 end).
Proof.
  intros E1 E2 Hne. unfold authenticateToken. rewrite E1, E2. cbn [negb truthy].
  rewrite bool_decide_eq_false_2 by exact Hne. cbn [negb].
  unfold bind, Date_now. now destruct (jwt_verify token SECRET (clock w)).
Qed.

(** The guard never touches the world. *)
Lemma authenticateToken_world req w : (authenticateToken req w).1 = w.
Proof.
  unfold authenticateToken.
  destruct (truthy (headers req !! "authorization")); [|reflexivity]. cbn [negb].
  destruct (truthy (locate_token req)); [|reflexivity].
  destruct (locate_token req) as [t|]; [|reflexivity].
  unfold bind, Date_now. now destruct (jwt_verify t SECRET (clock w)).
Qed.

(** When the guard lets a request through, it has attached the identity
    the token verifies to, and done nothing else. *)
Lemma authenticateToken_next req w w' req' :
  authenticateToken req w = (w', Resolved (Next req')) ->
  w' = w
  /\ exists token u, locate_token req = Some token
                     /\ jwt_verify token SECRET (clock w) = Some u
                     /\ req' = with_user u req.
Proof.
  unfold authenticateToken.
  destruct (truthy (headers req !! "authorization")); [|discriminate]. cbn [negb].
  destruct (truthy (locate_token req)); [|discriminate].
  destruct (locate_token req) as [t|]; [|discriminate].
  unfold bind, Date_now, ret.
  destruct (jwt_verify t SECRET (clock w)) as [u|] eqn:Ev; [|discriminate].
  intros [= <- <-]. split; [reflexivity|]. now exists t, u.
Qed.

(** ** The authorization guard *)

Lemma authorizeRoles_denied roles req u w :
  user req = Some u -> Identity.role u ∉ roles ->
  authorizeRoles roles req w
  = (w, Resolved (Respond (res_status_json 403 (JError "Access Denied")))).
Proof.
  intros Eu Hn. unfold authorizeRoles. rewrite Eu.
  now rewrite bool_decide_eq_false_2.
Qed.

Lemma authorizeRoles_granted roles req u w :
  user req = Some u -> Identity.role u ∈ roles ->
  authorizeRoles roles req w = (w, Resolved (Next req)).
Proof.
  intros Eu Hin. unfold authorizeRoles. rewrite Eu.
  now rewrite bool_decide_eq_true_2.
Qed.

(** Every route the table of section 4.3 protects is registered with the
    two guards, in this order, and with the table's roles. *)
Lemma route_guards ep roles :
  section_4_3_roles ep = Some roles ->
  (route ep).1 = [authenticateToken; authorizeRoles roles].
Proof. destruct ep; cbn; intros [= <-]; reflexivity. Qed.

Lemma route_unguarded ep :
  section_4_3_roles ep = None -> (route ep).1 = [].
Proof. destruct ep; cbn; intros [=]; reflexivity. Qed.

(** An authenticated request whose role is allowed reaches the handler as
    the authentication guard left it. *)
Lemma app_granted req w u roles :
  section_4_3_roles (endpoint req) = Some roles ->
  authenticateToken req w = (w, Resolved (Next (with_user u req))) ->
  Identity.role u ∈ roles ->
  app req w = (route (endpoint req)).2 (with_user u req) w.
Proof.
  intros Hr Ha Hin. unfold app. rewrite (route_guards _ _ Hr).
  rewrite (run_next _ _ _ _ _ _ _ Ha).
  now rewrite (run_next _ _ _ _ _ _ _
                 (authorizeRoles_granted roles (with_user u req) u w eq_refl Hin)).
Qed.

(** ** Role gating (section 4.2, table of section 4.3) *)

(** C1. On every protected endpoint, registered with the guards and the
    roles of the table of section 4.3, a request authenticated as [u] whose
    role is not in the endpoint's allow-list is answered 403 "Access Denied"
    by the authorization guard, whatever the handler is and with the world
    left as it was (the handler is not run); a request whose role is in the
    allow-list passes the guard unchanged, and the handler receives it. *)
Theorem role_gate_rejects_and_admits ep roles req w u :
  section_4_3_roles ep = Some roles ->
  endpoint req = ep ->
  authenticateToken req w = (w, Resolved (Next (with_user u req))) ->
  (route ep).1 = [authenticateToken; authorizeRoles roles]
  /\ (Identity.role u ∉ roles ->
      authorizeRoles roles (with_user u req) w
      = (w, Resolved (Respond (res_status_json 403 (JError "Access Denied"))))
      /\ (forall h, run (route ep).1 h req w
                    = (w, Resolved (res_status_json 403 (JError "Access Denied"))))
      /\ app req w = (w, Resolved (res_status_json 403 (JError "Access Denied"))))
  /\ (Identity.role u ∈ roles ->
      authorizeRoles roles (with_user u req) w = (w, Resolved (Next (with_user u req)))
      /\ (forall h, run (route ep).1 h req w = h (with_user u req) w)
      /\ app req w = (route ep).2 (with_user u req) w).
Proof.
  intros Hr <- Ha. pose proof (route_guards _ _ Hr) as Hg.
  split; [exact Hg|]. split.
  - intros Hn.
    pose proof (authorizeRoles_denied roles (with_user u req) u w eq_refl Hn) as Hd.
    assert (forall h, run (route (endpoint req)).1 h req w
                      = (w, Resolved (res_status_json 403 (JError "Access Denied")))) as Hrun.
    { intros h. rewrite Hg, (run_next _ _ _ _ _ _ _ Ha). exact (run_answered _ _ _ _ _ _ _ Hd). }
    split; [exact Hd|]. split; [exact Hrun|]. apply Hrun.
  - intros Hin.
    pose proof (authorizeRoles_granted roles (with_user u req) u w eq_refl Hin) as Hp.
    split; [exact Hp|]. split.
    + intros h. rewrite Hg, (run_next _ _ _ _ _ _ _ Ha). now rewrite (run_next _ _ _ _ _ _ _ Hp).
    + exact (app_granted _ _ _ _ Hr Ha Hin).
Qed.

(** ** Locating the token (section 4.1) *)

(** C2, as the code has it. When the request carries a (non-empty)
    [Authorization] header, the token is the [jwt_token] cookie if the
    request has a non-empty one, and otherwise the second space-separated
    field of the header; the guard verifies the token so located. In
    particular a request with a valid token in the cookie is authenticated
    when it also carries an [Authorization] header. *)
Theorem token_from_cookie_else_header req w h :
  headers req !! "authorization" = Some h -> h <> "" ->
  (forall c, cookies req !! "jwt_token" = Some c -> c <> "" -> locate_token req = Some c)
  /\ (truthy (cookies req !! "jwt_token") = false ->
      locate_token req = split " " h !! 1%nat)
  /\ (forall t, locate_token req = Some t -> t <> "" ->
      authenticateToken req w
      = (w, Resolved match jwt_verify t SECRET (clock w) with
                     | None => Respond (res_status_json 403 (JError "Token Expired"))
                     | Some u => Next (with_user u req)
                     end))
  /\ (forall c u, cookies req !! "jwt_token" = Some c -> c <> "" ->
      jwt_verify c SECRET (clock w) = Some u ->
      authenticateToken req w = (w, Resolved (Next (with_user u req)))).
Proof.
  intros Hh Hne.
  assert (truthy (headers req !! "authorization") = true) as Ht.
  { rewrite Hh. cbn. now rewrite bool_decide_eq_false_2. }
  assert (forall c, cookies req !! "jwt_token" = Some c -> c <> "" ->
                    locate_token req = Some c) as Hc.
  { intros c Ec Hc. unfold locate_token, js_or. rewrite Ec. cbn.
    now rewrite bool_decide_eq_false_2. }
  split; [exact Hc|]. split; [|split].
  - intros Ef. unfold locate_token, js_or, js_and. rewrite Ef, Ht, Hh. reflexivity.
  - intros t Et Hn. exact (authenticateToken_token req w t Ht Et Hn).
  - intros c u Ec Hn Ev.
    rewrite (authenticateToken_token req w c Ht (Hc c Ec Hn) Hn). now rewrite Ev.
Qed.


(** C10. A request to a protected route with no [Authorization] header is
    answered 401 "Invalid JWT" by the authentication guard: the answer is
    final, neither the authorization guard nor any handler runs, and the
    world is left as it was. A request whose header exists but yields no
    usable token is answered 401 as well, with the different message
    "Token missing". *)
Theorem missing_header_answered_401 req w :
  headers req !! "authorization" = None ->
  authenticateToken req w
  = (w, Resolved (Respond (res_status_json 401 (JError "Invalid JWT"))))
  /\ (forall ms h, run (authenticateToken :: ms) h req w
                   = (w, Resolved (res_status_json 401 (JError "Invalid JWT"))))
  /\ (forall roles, section_4_3_roles (endpoint req) = Some roles ->
      app req w = (w, Resolved (res_status_json 401 (JError "Invalid JWT"))))
  /\ (forall req' w',
      truthy (headers req' !! "authorization") = true ->
      truthy (locate_token req') = false ->
      authenticateToken req' w'
      = (w', Resolved (Respond (res_status_json 401 (JError "Token missing")))))
  /\ JError "Invalid JWT" <> JError "Token missing".
Proof.
  intros Hh.
  assert (authenticateToken req w
          = (w, Resolved (Respond (res_status_json 401 (JError "Invalid JWT"))))) as Ha.
  { apply authenticateToken_no_header. now rewrite Hh. }
  split; [exact Ha|]. split; [|split; [|split]].
  - intros ms h. exact (run_answered _ _ _ _ _ _ _ Ha).
  - intros roles Hr. unfold app. rewrite (route_guards _ _ Hr).
    exact (run_answered _ _ _ _ _ _ _ Ha).
  - intros req' w'. apply authenticateToken_no_token.
  - discriminate.
Qed.

(** ** Frame rules *)

Section Keeps.
Context {B : Type} (f : World -> B).
Hypothesis f_faults : forall fs w, f (with_faults fs w) = f w.
Hypothesis f_next_id : forall n w, f (with_next_id n w) = f w.

Lemma keeps_ret {A} (a : A) : keeps f (ret a).
Proof. now intros w. Qed.

Lemma keeps_throw {A} e : keeps f (@throw A e).
Proof. now intros w. Qed.

Lemma keeps_bind {A C} (m : Async A) (k : A -> Async C) :
  keeps f m -> (forall a, keeps f (k a)) -> keeps f (bind m k).
Proof.
  intros Hm Hk w. unfold bind. specialize (Hm w).
  destruct (m w) as [w' [a|e]]; cbn in *; [|exact Hm].
  now rewrite Hk.
Qed.

Lemma keeps_try_catch {A} (m : Async A) (h : JsError -> Async A) :
  keeps f m -> (forall e, keeps f (h e)) -> keeps f (try_catch m h).
Proof.
  intros Hm Hh w. unfold try_catch. specialize (Hm w).
  destruct (m w) as [w' [a|e]]; cbn in *; [exact Hm|].
  now rewrite Hh.
Qed.

Lemma keeps_store_call {A} (op : World -> World * Result A) :
  (forall w, f (op w).1 = f w) -> keeps f (store_call op).
Proof.
  intros Hop w. unfold store_call.
  destruct (faults w) as [|[m|] fs]; cbn; rewrite ?Hop; auto.
Qed.

Lemma keeps_fresh : keeps f fresh.
Proof. intros w. apply f_next_id. Qed.

Lemma keeps_Date_now : keeps f Date_now.
Proof. now intros w. Qed.

Lemma keeps_bcrypt_hash_async pw rounds : keeps f (bcrypt_hash_async pw rounds).
Proof. intros w. apply f_next_id. Qed.

Lemma keeps_req_user_id req : keeps f (req_user_id req).
Proof. unfold req_user_id. destruct (user req); [apply keeps_ret | apply keeps_throw]. Qed.

Lemma keeps_authenticateToken req : keeps f (authenticateToken req).
Proof. intros w. now rewrite authenticateToken_world. Qed.

Lemma keeps_authorizeRoles roles req : keeps f (authorizeRoles roles req).
Proof.
  unfold authorizeRoles. destruct (user req); [|apply keeps_throw].
  destruct (negb _); apply keeps_ret.
Qed.

Lemma keeps_run ms h :
  Forall (fun m : Middleware => forall req, keeps f (m req)) ms ->
  (forall req, keeps f (h req)) -> forall req, keeps f (run ms h req).
Proof.
  intros Hms Hh. induction Hms as [|m ms Hm _ IH]; intros req; cbn [run]; [apply Hh|].
  apply keeps_bind; [apply Hm|]. intros [r|req']; [apply keeps_ret | apply IH].
Qed.

End Keeps.

Ltac keeps_side := solve [intros; reflexivity | assumption].

(** One step of a frame computation: close a leaf, peel a bind, a
    [try]/[catch] or a store call, or split on the value a continuation
    branches on. *)
Ltac keeps_step :=
  first
    [ apply keeps_ret | apply keeps_throw | apply keeps_Date_now
    | apply keeps_req_user_id
    | apply keeps_fresh; keeps_side
    | apply keeps_bcrypt_hash_async; keeps_side
    | apply keeps_bind; [|intros ?]
    | apply keeps_try_catch; [|intros ?]
    | apply keeps_store_call; [keeps_side | intros ?; try reflexivity]
    | match goal with
      | |- keeps _ (match ?x with _ => _ end) => destruct x
      end ].

Ltac keeps_auto := repeat keeps_step.

(** ** Uniqueness of phone numbers *)

Lemma unique_phones_NoDup us : unique_phones us <-> NoDup (map User.phoneNumber us).
Proof.
  rewrite NoDup_alt. unfold unique_phones. split.
  - intros Hu i j p Hi Hj.
    change (map User.phoneNumber us) with (User.phoneNumber <$> us) in Hi, Hj.
    rewrite list_lookup_fmap in Hi, Hj.
    destruct (us !! i) as [u1|] eqn:E1; [|discriminate].
    destruct (us !! j) as [u2|] eqn:E2; [|discriminate].
    cbn in Hi, Hj. apply (Hu i j u1 u2 E1 E2). congruence.
  - intros Hn i j u1 u2 E1 E2 Ep.
    apply (Hn i j (User.phoneNumber u1));
      change (map User.phoneNumber us) with (User.phoneNumber <$> us);
      rewrite list_lookup_fmap; [now rewrite E1 | now rewrite E2, Ep].
Qed.

Lemma User_with_phone_None p us :
  User_with_phone p us = None -> p ∉ map User.phoneNumber us.
Proof.
  unfold User_with_phone. induction us as [|u us IH]; cbn.
  - intros _. apply not_elem_of_nil.
  - case_bool_decide as Ep; [discriminate|]. intros Hf.
    apply not_elem_of_cons. split; [congruence | exact (IH Hf)].
Qed.

Lemma User_with_phone_Some p us u :
  User_with_phone p us = Some u -> u ∈ us /\ User.phoneNumber u = p.
Proof.
  unfold User_with_phone. intros Hf. apply find_some in Hf as [Hin Hp].
  split; [now apply list_elem_of_In | now apply bool_decide_eq_true_1 in Hp].
Qed.

Lemma User_with_phone_found p us u :
  u ∈ us -> User.phoneNumber u = p -> exists u', User_with_phone p us = Some u'.
Proof.
  intros Hin Hp. destruct (User_with_phone p us) as [u'|] eqn:E; [now exists u'|].
  apply User_with_phone_None in E. exfalso. apply E.
  subst p. apply list_elem_of_In, in_map, list_elem_of_In, Hin.
Qed.

Lemma phones_update_isActive q b us :
  map User.phoneNumber (update_first q (User.set_isActive b) us) = map User.phoneNumber us.
Proof.
  induction us as [|u us IH]; cbn; [reflexivity|].
  destruct (q u); cbn; [reflexivity | now rewrite IH].
Qed.

Lemma phones_step_unique w w' :
  phones_step w w' -> unique_phones (users w) -> unique_phones (users w').
Proof.
  rewrite !unique_phones_NoDup. fold (phones w) (phones w').
  intros [-> | (p & Hnone & ->)] Hu; [exact Hu|].
  apply NoDup_app. split; [exact Hu|]. split; [|apply NoDup_singleton].
  intros x Hx Hx'. apply list_elem_of_singleton in Hx' as ->.
  exact (User_with_phone_None _ _ Hnone Hx).
Qed.

(** The three handlers that create users run the same steps: look the phone
    number up, stop if it is taken, else hash, construct, save. *)
Ltac creator_steps w p :=
  unfold User_findOne, User_save_new, new_User, bcrypt_hash_async;
  unfold try_catch, bind, ret, throw, internal_error, store_call, fresh, Date_now;
  unfold phones_step, phones;
  destruct w as [us vs bs n c fs];
  cbn [users faults with_faults with_next_id with_users fst snd];
  (* the outcome of the lookup, then the script of the lookup and of the insert *)
  destruct (User_with_phone p us) eqn:Hlookup;
  destruct fs as [|[?|] [|[?|] ?]];
  cbn [users faults with_faults with_next_id with_users fst snd];
  try match goal with
      | |- context [match User_validate ?u with _ => _ end] => destruct (User_validate u)
      end;
  cbn [users faults with_faults with_next_id with_users fst snd];
  first [ left; reflexivity
        | right; exists p; split; [exact Hlookup|]; rewrite map_app; reflexivity ].

Lemma post_register_phones name p password req w :
  phones_step w (post_register name p password req w).1.
Proof. unfold post_register. creator_steps w p. Qed.

Lemma post_director_create_admin_phones name p password req w :
  phones_step w (post_director_create_admin name p password req w).1.
Proof. unfold post_director_create_admin. creator_steps w p. Qed.

Lemma post_director_create_driver_phones name p password req w :
  phones_step w (post_director_create_driver name p password req w).1.
Proof. unfold post_director_create_driver. creator_steps w p. Qed.

Lemma put_director_toggle_user_phones id req : keeps phones (put_director_toggle_user id req).
Proof.
  unfold put_director_toggle_user, User_findById, User_save_isActive. keeps_auto.
  unfold phones. cbn. apply phones_update_isActive.
Qed.

(** Every handler of the route table takes a step of the phone column. *)
Lemma handler_phones ep req w : phones_step w ((route ep).2 req w).1.
Proof.
  destruct ep; cbn [route snd];
    try apply post_register_phones;
    try apply post_director_create_admin_phones;
    try apply post_director_create_driver_phones;
    left;
    try apply put_director_toggle_user_phones.
  all: unfold post_login, post_book, get_my_bookings, get_admin_bookings,
         put_admin_update_status, get_admin_search, post_director_add_vehicle,
         get_director_revenue, put_director_update_vehicle, get_director_all_users,
         get_director_vehicles,
         User_findOne, User_findById, new_Booking, Booking_save_new, Booking_find,
         Booking_findByIdAndUpdate, new_Vehicle, Vehicle_save_new, Vehicle_find,
         Vehicle_findByIdAndUpdate.
  all: match goal with |- phones (?m ?w).1 = phones ?w =>
         revert w; change (keeps phones m) end.
  all: keeps_auto.
Qed.

(** The guards of a route leave the world alone: a request either ends at
    a guard, in the world it came in, or reaches the handler in that world. *)
Lemma app_world req w :
  app req w = (w, (app req w).2)
  \/ exists req', app req w = (route (endpoint req)).2 req' w.
Proof.
  unfold app. destruct (section_4_3_roles (endpoint req)) as [roles|] eqn:Er.
  - rewrite (route_guards _ _ Er). cbn [run]. unfold bind.
    pose proof (authenticateToken_world req w) as Ha.
    destruct (authenticateToken req w) as [w1 [[r|req1]|e]]; cbn in Ha; subst w1;
      [left; reflexivity | | left; reflexivity].
    pose proof (keeps_authorizeRoles (fun w => w) roles req1 w) as Hz.
    destruct (authorizeRoles roles req1 w) as [w2 [[r|req2]|e]]; cbn in Hz; subst w2;
      [left; reflexivity | | left; reflexivity].
    right. now exists req2.
  - rewrite (route_unguarded _ Er). right. now exists req.
Qed.

Lemma app_unique_phones req w :
  unique_phones (users w) -> unique_phones (users (app req w).1).
Proof.
  intros Hu. destruct (app_world req w) as [E | [req' E]]; rewrite E; [exact Hu|].
  exact (phones_step_unique _ _ (handler_phones _ _ _) Hu).
Qed.

(** C4. The Users collection never comes to hold two records with one
    phone number: if the phone numbers are unique, they are unique after
    the server has handled any request, and so after any sequence of
    requests. The three operations that create users look the number up
    first and, when a user has it, answer 400 (the [Conflict] of the
    specification) and leave the world as it was. *)
Theorem phone_numbers_stay_unique req w :
  unique_phones (users w) ->
  unique_phones (users (app req w).1)
  /\ (forall reqs, unique_phones (users (serve reqs w)))
  /\ (faults w = [] ->
      forall name phone password u, u ∈ users w -> User.phoneNumber u = phone ->
        post_register name phone password req w
        = (w, Resolved (res_status_json 400 (JError "User Exists")))
        /\ post_director_create_admin name phone password req w
           = (w, Resolved (res_status_json 400 (JError "User already exists")))
        /\ post_director_create_driver name phone password req w
           = (w, Resolved (res_status_json 400 (JError "User already exists")))).
Proof.
  intros Hu. split; [exact (app_unique_phones req w Hu)|]. split.
  - intros reqs. revert w Hu. induction reqs as [|r reqs IH]; intros w Hu; cbn [serve].
    + exact Hu.
    + apply IH, app_unique_phones, Hu.
  - intros Hf name phone password u Hin Hp.
    destruct (User_with_phone_found _ _ _ Hin Hp) as [u' Eu].
    unfold post_register, post_director_create_admin, post_director_create_driver,
      User_findOne, try_catch, bind, store_call.
    rewrite Hf, Eu. repeat split.
Qed.

(** ** Login *)

(** C5. With the store answering, login succeeds exactly when the lookup
    by phone number finds a user and the supplied password verifies against
    that user's stored hash. On success the answer carries the user record
    and the token signed over exactly that user's id and role with the
    expiry option "7d"; otherwise the answer is a 400 with an error body,
    which carries no token. The world is left as it was. *)
Theorem login_outcome req w phone password :
  endpoint req = login phone password ->
  faults w = [] ->
  exists r, app req w = (w, Resolved r)
    /\ (statusCode r = 200 <->
        exists u, User_with_phone phone (users w) = Some u
                  /\ bcrypt_compare password (User.password u) = true)
    /\ (forall u, User_with_phone phone (users w) = Some u ->
        bcrypt_compare password (User.password u) = true ->
        r = res_json (JLogin "Login Success"
                        (jwt_sign (Identity.mk (User._id u) (User.role u)) SECRET "7d" (clock w))
                        u))
    /\ (User_with_phone phone (users w) = None ->
        r = res_status_json 400 (JError "Invalid User"))
    /\ (forall u, User_with_phone phone (users w) = Some u ->
        bcrypt_compare password (User.password u) = false ->
        r = res_status_json 400 (JError "Invalid Password")).
Proof.
  intros Ee Hf. unfold app. rewrite Ee. cbn [route fst snd run].
  unfold post_login, User_findOne, bind, store_call, Date_now, ret. rewrite Hf.
  destruct (User_with_phone phone (users w)) as [u|] eqn:Eu;
    [destruct (bcrypt_compare password (User.password u)) eqn:Ec; cbn [negb]|];
    (eexists; split; [reflexivity|]);
    repeat split; intros;
    repeat match goal with
           | E : exists _, _ |- _ => destruct E
           | E : _ /\ _ |- _ => destruct E
           end;
    simplify_eq; try discriminate; try congruence; eauto.
Qed.

(** ** Bookings *)

(** C6. For a caller authenticated with the role [customer], my-bookings
    answers with the bookings of the collection whose [customerId] is the
    id carried by the caller's token, and only those: a booking is in the
    answer exactly when it is in the collection under that id. *)
Theorem my_bookings_exactly_own req w u :
  endpoint req = my_bookings ->
  authenticateToken req w = (w, Resolved (Next (with_user u req))) ->
  Identity.role u = "customer" ->
  faults w = [] ->
  exists own, app req w = (w, Resolved (res_json (JBookings own)))
    /\ own = List.filter (fun b => bool_decide (Booking.customerId b = Identity.id u))
                         (bookings w)
    /\ forall b, b ∈ own <-> b ∈ bookings w /\ Booking.customerId b = Identity.id u.
Proof.
  intros Ee Ha Hr Hf. eexists. split; [|split; [reflexivity|]].
  - assert (Identity.role u ∈ ["customer"]) as Hin by (rewrite Hr; apply list_elem_of_here).
    rewrite (app_granted req w u ["customer"]); [| now rewrite Ee | exact Ha | exact Hin].
    rewrite Ee. cbn [route snd]. unfold get_my_bookings, req_user_id. cbn [with_user user].
    unfold Booking_find, bind, ret. now rewrite (store_call_answers _ _ Hf).
  - intros b. rewrite !list_elem_of_In, filter_In. now rewrite bool_decide_eq_true.
Qed.

Lemma length_update_first {A} (p : A -> bool) f (l : list A) :
  length (update_first p f l) = length l.
Proof.
  induction l as [|x l IH]; cbn; [reflexivity|].
  destruct (p x); cbn; [reflexivity | now rewrite IH].
Qed.

Lemma update_first_lookup {A} (p : A -> bool) f (l : list A) i x :
  l !! i = Some x ->
  update_first p f l !! i = Some x
  \/ (p x = true /\ update_first p f l !! i = Some (f x)).
Proof.
  revert i. induction l as [|y l IH]; intros i Hi; [discriminate|]. cbn.
  destruct (p y) eqn:Ep.
  - destruct i as [|i]; cbn in *; [|now left]. injection Hi as ->. now right.
  - destruct i as [|i]; cbn in *; [now left | now apply IH].
Qed.

Lemma update_first_other {A} (p : A -> bool) f (l : list A) i x :
  l !! i = Some x -> p x = false -> update_first p f l !! i = Some x.
Proof.
  intros Hi Hp. destruct (update_first_lookup p f l i x Hi) as [E | [E _]];
    [exact E | congruence].
Qed.

(** The first document that matches is the one that is rewritten. *)
Lemma update_first_hit {A} (p : A -> bool) f (l : list A) x :
  List.find p l = Some x ->
  exists i, l !! i = Some x /\ update_first p f l !! i = Some (f x)
            /\ forall j y, (j < i)%nat -> l !! j = Some y -> p y = false.
Proof.
  induction l as [|y l IH]; [discriminate|]. cbn. destruct (p y) eqn:Ep.
  - intros [= ->]. exists 0%nat. repeat split. intros j y Hj. inversion Hj.
  - intros Hf. destruct (IH Hf) as (i & Hi & Hu & Hlt). exists (S i). repeat split; auto.
    intros [|j] z Hj Hz; cbn in Hz; [congruence|]. apply (Hlt j z); [lia | exact Hz].
Qed.

(** C7. For a caller authenticated as [admin] or [director], with the store
    answering, update-status answers "Status Updated" for every status
    value, valid or not and whatever the booking's current status. Users
    and vehicles are untouched; the Bookings collection keeps its length;
    bookings with another id are unchanged; the booking found under the
    given id has its status overwritten by the supplied value; and
    overwriting the status changes no other field. *)
Theorem update_status_overwrites_only_status req w u id status :
  endpoint req = admin_update_status id status ->
  authenticateToken req w = (w, Resolved (Next (with_user u req))) ->
  Identity.role u ∈ ["admin"; "director"] ->
  faults w = [] ->
  exists w', app req w = (w', Resolved (res_json (JMessage "Status Updated")))
    /\ users w' = users w /\ vehicles w' = vehicles w
    /\ length (bookings w') = length (bookings w)
    /\ (forall i b, bookings w !! i = Some b -> Booking._id b <> id ->
        bookings w' !! i = Some b)
    /\ (forall i b, bookings w !! i = Some b ->
        bookings w' !! i = Some b
        \/ (Booking._id b = id /\ bookings w' !! i = Some (Booking.set_status status b)))
    /\ (forall b, List.find (fun b => bool_decide (Booking._id b = id)) (bookings w) = Some b ->
        exists i, bookings w !! i = Some b
                  /\ bookings w' !! i = Some (Booking.set_status status b))
    /\ (forall b, let b' := Booking.set_status status b in
        Booking.status b' = status
        /\ Booking._id b' = Booking._id b
        /\ Booking.customerId b' = Booking.customerId b
        /\ Booking.customerName b' = Booking.customerName b
        /\ Booking.customerPhone b' = Booking.customerPhone b
        /\ Booking.vehicleId b' = Booking.vehicleId b
        /\ Booking.vehicleType b' = Booking.vehicleType b
        /\ Booking.fromLocation b' = Booking.fromLocation b
        /\ Booking.toLocation b' = Booking.toLocation b
        /\ Booking.travelDate b' = Booking.travelDate b
        /\ Booking.amount b' = Booking.amount b
        /\ Booking.createdAt b' = Booking.createdAt b).
Proof.
  intros Ee Ha Hin Hf.
  rewrite (app_granted req w u ["admin"; "director"]); [| now rewrite Ee | exact Ha | exact Hin].
  rewrite Ee. cbn [route snd].
  unfold put_admin_update_status, Booking_findByIdAndUpdate, bind, ret.
  rewrite (store_call_answers _ _ Hf). cbn zeta.
  eexists. split; [reflexivity|]. cbn [users vehicles bookings with_bookings].
  split; [reflexivity|]. split; [reflexivity|].
  split; [apply length_update_first|]. split; [|split; [|split]].
  - intros i b Hi Hne. apply update_first_other; [exact Hi|].
    now apply bool_decide_eq_false_2.
  - intros i b Hi.
    destruct (update_first_lookup (fun b => bool_decide (Booking._id b = id))
                (Booking.set_status status) _ i b Hi) as [E | [Ep E]]; [now left|].
    right. split; [now apply bool_decide_eq_true_1 in Ep | exact E].
  - intros b Hb.
    destruct (update_first_hit _ (Booking.set_status status) _ _ Hb) as (i & Hi & Hu & _).
    now exists i.
  - intros b. cbn. repeat split.
Qed.

(** ** Doubles: the sign of a zero sum

    [b.amount || 0] turns a stored -0 into 0, and the two zeros add
    differently only to -0. The lemmas below show that a running total
    that starts at 0 is never -0, from the specification of binary64
    addition: a sum of two finite doubles that is not exactly 0 does not
    round to a zero. *)


















(** ** Revenue *)





(** ** Store failures *)

(** C9, on the code. When the store rejects the first call a handler
    awaits, the three handlers written with [try]/[catch] (register, book,
    all-users) answer 500 with the store's message; every other handler
    sends nothing: its promise rejects. *)
Theorem store_failure_answered_only_where_caught ep req w m fs :
  faults w = Some m :: fs ->
  is_Some (user req) ->
  if catches ep
  then (route ep).2 req w = (with_faults fs w, Resolved (res_status_json 500 (JError m)))
  else exists w' e, (route ep).2 req w = (w', Rejected e).
Proof.
  intros Hf [u Hu].
  destruct ep; cbn [catches route snd];
    unfold post_register, post_login, post_book, get_my_bookings, get_admin_bookings,
      put_admin_update_status, get_admin_search, post_director_create_admin,
      post_director_add_vehicle, post_director_create_driver, get_director_revenue,
      put_director_update_vehicle, get_director_all_users, put_director_toggle_user,
      get_director_vehicles, req_user_id,
      User_findOne, User_findById, Booking_find, Booking_findByIdAndUpdate,
      new_Vehicle, Vehicle_save_new, Vehicle_find, Vehicle_findByIdAndUpdate,
      try_catch, bind, ret, throw, internal_error, fresh, Date_now;
    rewrite ?Hu; cbn [with_next_id faults];
    try match goal with
        | |- context [match Vehicle_validate ?v with _ => _ end] =>
            destruct (Vehicle_validate v)
        end;
    rewrite ?(store_call_rejects _ _ _ _ Hf);
    try reflexivity; try (eexists _, _; reflexivity).
  - cbn [with_next_id]. erewrite store_call_rejects by exact Hf. eexists _, _; reflexivity.
Qed.


(** * Further properties of the guards and the handlers *)

(** ** Who reaches a handler *)

(** A request to a guarded route either gets one of the four answers of the
    guards, in the world it came in, or reaches the handler. *)
Lemma authenticateToken_cases req w :
  (exists r, authenticateToken req w = (w, Resolved (Respond r))
             /\ r ∈ [res_status_json 401 (JError "Invalid JWT");
                     res_status_json 401 (JError "Token missing");
                     res_status_json 403 (JError "Token Expired")])
  \/ (exists token u,
        truthy (headers req !! "authorization") = true
        /\ locate_token req = Some token /\ token <> ""
        /\ jwt_verify token SECRET (clock w) = Some u
        /\ authenticateToken req w = (w, Resolved (Next (with_user u req)))).
Proof.
  destruct (truthy (headers req !! "authorization")) eqn:Eh.
  - destruct (locate_token req) as [t|] eqn:El.
    + destruct (decide (t = "")) as [-> | Hne].
      * left. eexists. split; [apply authenticateToken_no_token; [exact Eh | now rewrite El]|].
        apply list_elem_of_further, list_elem_of_here.
      * pose proof (authenticateToken_token req w t Eh El Hne) as Ha.
        destruct (jwt_verify t SECRET (clock w)) as [u|] eqn:Ev.
        -- right. now exists t, u.
        -- left. eexists. split; [exact Ha|].
           do 2 apply list_elem_of_further. apply list_elem_of_here.
    + left. eexists. split; [apply authenticateToken_no_token; [exact Eh | now rewrite El]|].
      apply list_elem_of_further, list_elem_of_here.
  - left. eexists. split; [now apply authenticateToken_no_header|]. apply list_elem_of_here.
Qed.

Lemma guard_answer_auth r :
  r ∈ [res_status_json 401 (JError "Invalid JWT");
       res_status_json 401 (JError "Token missing");
       res_status_json 403 (JError "Token Expired")] ->
  r ∈ guard_answers.
Proof.
  unfold guard_answers. rewrite !elem_of_cons. tauto.
Qed.

(** A request to a guarded route either gets one of the four answers of the
    guards, in the world it came in, or reaches the handler. *)
Lemma app_cases req w :
  (exists r, app req w = (w, Resolved r) /\ r ∈ guard_answers
             /\ (route (endpoint req)).1 <> [])
  \/ (exists req', app req w = (route (endpoint req)).2 req' w).
Proof.
  unfold app. destruct (section_4_3_roles (endpoint req)) as [roles|] eqn:Er.
  - rewrite (route_guards _ _ Er).
    destruct (authenticateToken_cases req w) as [(r & Ha & Hr) | (t & u & _ & _ & _ & _ & Ha)].
    + left. exists r. split; [exact (run_answered _ _ _ _ _ _ _ Ha)|].
      split; [exact (guard_answer_auth _ Hr) | discriminate].
    + rewrite (run_next _ _ _ _ _ _ _ Ha).
      destruct (decide (Identity.role u ∈ roles)) as [Hin | Hn].
      * right. exists (with_user u req).
        now rewrite (run_next _ _ _ _ _ _ _
                       (authorizeRoles_granted roles (with_user u req) u w eq_refl Hin)).
      * left. eexists. split;
          [exact (run_answered _ _ _ _ _ _ _
                    (authorizeRoles_denied roles (with_user u req) u w eq_refl Hn))|].
        split; [|discriminate].
        do 3 apply list_elem_of_further. apply list_elem_of_here.
  - rewrite (route_unguarded _ Er). right. now exists req.
Qed.

(** X1. On a route registered with the two guards, the handler runs only
    for a request whose token verifies, at the time of the request, to an
    identity whose role is in the route's list, and it receives the request
    with exactly that identity attached; any other request gets one of the
    four answers of the guards and leaves the world as it was. *)
Theorem handler_runs_only_for_verified_allowed_role req w roles :
  (route (endpoint req)).1 = [authenticateToken; authorizeRoles roles] ->
  (exists r, app req w = (w, Resolved r) /\ r ∈ guard_answers)
  \/ (exists token u,
        truthy (headers req !! "authorization") = true
        /\ locate_token req = Some token /\ token <> ""
        /\ jwt_verify token SECRET (clock w) = Some u
        /\ Identity.role u ∈ roles
        /\ app req w = (route (endpoint req)).2 (with_user u req) w).
Proof.
  intros Hg. unfold app. rewrite Hg.
  destruct (authenticateToken_cases req w)
    as [(r & Ha & Hr) | (t & u & Eh & El & Hne & Ev & Ha)].
  - left. exists r. split; [exact (run_answered _ _ _ _ _ _ _ Ha)|].
    exact (guard_answer_auth _ Hr).
  - rewrite (run_next _ _ _ _ _ _ _ Ha).
    destruct (decide (Identity.role u ∈ roles)) as [Hin | Hn].
    + right. exists t, u. repeat split; try assumption.
      now rewrite (run_next _ _ _ _ _ _ _
                     (authorizeRoles_granted roles (with_user u req) u w eq_refl Hin)).
    + left. eexists. split;
        [exact (run_answered _ _ _ _ _ _ _
                  (authorizeRoles_denied roles (with_user u req) u w eq_refl Hn))|].
      do 3 apply list_elem_of_further. apply list_elem_of_here.
Qed.

(** X2. No guarded route lists the role [driver], nor any role other than
    [customer], [admin] and [director]: a request authenticated with such
    a role is answered 403 "Access Denied" on every guarded route, and the
    world is left as it was. *)
Theorem other_roles_are_refused_everywhere req w u :
  (route (endpoint req)).1 <> [] ->
  authenticateToken req w = (w, Resolved (Next (with_user u req))) ->
  Identity.role u ∉ ["customer"; "admin"; "director"] ->
  app req w = (w, Resolved (res_status_json 403 (JError "Access Denied"))).
Proof.
  intros Hne Ha Hr. unfold app.
  destruct (section_4_3_roles (endpoint req)) as [roles|] eqn:Er;
    [|now rewrite (route_unguarded _ Er) in Hne].
  rewrite (route_guards _ _ Er), (run_next _ _ _ _ _ _ _ Ha).
  apply run_answered. apply (authorizeRoles_denied roles (with_user u req) u w eq_refl).
  intros Hin. apply Hr.
  destruct (endpoint req); cbn in Er; try discriminate; injection Er as <-;
    repeat (apply elem_of_cons in Hin as [-> | Hin];
            [apply list_elem_of_In; cbn; tauto|]);
    now apply elem_of_nil in Hin.
Qed.

(** ** The statuses the server answers with *)

Lemma answers_ret codes r : statusCode r ∈ codes -> answers_among codes (ret r).
Proof. intros Hr w w' r' [= _ <-]. exact Hr. Qed.

Lemma answers_throw codes e : answers_among codes (throw e).
Proof. intros w w' r [=]. Qed.

Lemma answers_bind {A} codes (m : Async A) (k : A -> Async Response) :
  (forall a, answers_among codes (k a)) -> answers_among codes (bind m k).
Proof.
  intros Hk w w' r. unfold bind. destruct (m w) as [w1 [a|e]]; [apply Hk | discriminate].
Qed.

Lemma answers_try_catch codes (m : Async Response) (h : JsError -> Async Response) :
  answers_among codes m -> (forall e, answers_among codes (h e)) ->
  answers_among codes (try_catch m h).
Proof.
  intros Hm Hh w w' r. unfold try_catch. destruct (m w) as [w1 [a|e]] eqn:E.
  - intros [= <- <-]. exact (Hm _ _ _ E).
  - apply Hh.
Qed.

Ltac answers_step :=
  first
    [ apply answers_throw
    | apply answers_ret; cbn; rewrite !elem_of_cons; tauto
    | apply answers_bind; intros ?
    | apply answers_try_catch; [|intros ?]
    | match goal with
      | |- answers_among _ (match ?x with _ => _ end) => destruct x
      end ].

(** Every handler answers 200, 201, 400 or 500. *)
Lemma handler_statuses ep req : answers_among [200; 201; 400; 500] ((route ep).2 req).
Proof.
  destruct ep; cbn [route snd];
    unfold post_register, post_login, post_book, get_my_bookings, get_admin_bookings,
      put_admin_update_status, get_admin_search, post_director_create_admin,
      post_director_add_vehicle, post_director_create_driver, get_director_revenue,
      put_director_update_vehicle, get_director_all_users, put_director_toggle_user,
      get_director_vehicles, internal_error;
    repeat answers_step.
Qed.

(** X3. The server only ever answers with the statuses 200, 201, 400, 401,
    403 and 500. A 401 or a 403 is always one of the four answers of the
    guards, given before any handler has run: the world is as it was. No
    handler answers 401 or 403, so register and login, which have no guard,
    never do. *)
Theorem statuses_and_refusals req w w' r :
  app req w = (w', Resolved r) ->
  statusCode r ∈ [200; 201; 400; 401; 403; 500]
  /\ (statusCode r = 401 \/ statusCode r = 403 ->
      w' = w /\ r ∈ guard_answers /\ (route (endpoint req)).1 <> []).
Proof.
  intros E. destruct (app_cases req w) as [(r0 & E0 & Hr0 & Hne) | (req' & E')].
  - rewrite E0 in E. injection E as <- <-. split; [|now intros _].
    unfold guard_answers in Hr0. rewrite !elem_of_cons, elem_of_nil in Hr0.
    destruct Hr0 as [-> | [-> | [-> | [-> | []]]]]; cbn; rewrite !elem_of_cons; tauto.
  - rewrite E' in E. pose proof (handler_statuses _ _ _ _ _ E) as Hs.
    rewrite !elem_of_cons, elem_of_nil in Hs. split.
    + rewrite !elem_of_cons. tauto.
    + intros [H4 | H4]; rewrite H4 in Hs; exfalso;
        destruct Hs as [Hs | [Hs | [Hs | [Hs | []]]]]; discriminate.
Qed.

(** ** Creating users *)

Lemma User_with_phone_app p us u :
  User_with_phone p (us ++ [u])
  = match User_with_phone p us with
    | Some x => Some x
    | None => if bool_decide (User.phoneNumber u = p) then Some u else None
    end.
Proof.
  unfold User_with_phone. induction us as [|x us IH]; cbn; [reflexivity|].
  destruct (bool_decide (User.phoneNumber x = p)); [reflexivity | exact IH].
Qed.

Lemma User_validate_ok i name phone hash role now :
  name <> "" -> phone <> "" -> hash <> "" -> role ∈ User.role_enum ->
  User_validate (User.mk i name phone hash role true now) = [].
Proof.
  intros Hn Hp Hh Hr. unfold User_validate, required, enum. cbn.
  now rewrite !bool_decide_eq_false_2, bool_decide_eq_true_2 by assumption.
Qed.

(** The steps the three creating handlers share, when the number is free
    and the store answers. *)
Ltac create_user w Hf Hfree Hn Hp Hh :=
  unfold User_findOne, bcrypt_hash_async, new_User, User_save_new,
    try_catch, bind, ret, fresh, Date_now;
  rewrite (store_call_answers _ _ Hf), Hfree;
  cbn [next_id clock with_next_id];
  rewrite User_validate_ok by
    first [ exact Hn | exact Hp | exact Hh | apply list_elem_of_In; cbn; tauto ];
  rewrite store_call_answers by exact Hf;
  reflexivity.

Section Creation.
Variables (name phone password : string) (req : Request) (w : World).
Hypothesis Hf : faults w = [].
Hypothesis Hfree : User_with_phone phone (users w) = None.
Hypothesis Hn : name <> "".
Hypothesis Hp : phone <> "".
Hypothesis Hh : bcrypt_hash password 10 (next_id w) <> "".

Lemma post_register_free :
  post_register name phone password req w
  = (after_create (created name phone password "customer" w) w,
     Resolved (res_status_json 201 (JMessage "Customer Registered"))).
Proof. unfold post_register. create_user w Hf Hfree Hn Hp Hh. Qed.

Lemma post_director_create_admin_free :
  post_director_create_admin name phone password req w
  = (after_create (created name phone password "admin" w) w,
     Resolved (res_json (JMessage "Admin Created Successfully"))).
Proof. unfold post_director_create_admin. create_user w Hf Hfree Hn Hp Hh. Qed.

Lemma post_director_create_driver_free :
  post_director_create_driver name phone password req w
  = (after_create (created name phone password "driver" w) w,
     Resolved (res_json (JMessage "Driver Created Successfully"))).
Proof. unfold post_director_create_driver. create_user w Hf Hfree Hn Hp Hh. Qed.

End Creation.

(** X4. Registration of a free phone number, with the store answering and
    a non-empty name, number and hash: the answer is 201 "Customer
    Registered" and the Users collection gains exactly one record, last,
    with the given name and number, the hasher's output for the password
    (at 10 rounds), the role [customer], the active flag set, and the
    current time; bookings and vehicles are untouched. *)
Theorem register_creates_customer req w name phone password :
  endpoint req = register name phone password ->
  faults w = [] ->
  User_with_phone phone (users w) = None ->
  name <> "" -> phone <> "" ->
  (forall salt, bcrypt_hash password 10 salt <> "") ->
  exists w' u,
    app req w = (w', Resolved (res_status_json 201 (JMessage "Customer Registered")))
    /\ users w' = (users w ++ [u])%list
    /\ User.name u = name /\ User.phoneNumber u = phone
    /\ (exists salt, User.password u = bcrypt_hash password 10 salt)
    /\ User.role u = "customer" /\ User.isActive u = true
    /\ User.createdAt u = clock w
    /\ bookings w' = bookings w /\ vehicles w' = vehicles w /\ faults w' = [].
Proof.
  intros Ee Hf Hfree Hn Hp Hh. unfold app. rewrite Ee. cbn [route fst snd run].
  rewrite (post_register_free name phone password req w Hf Hfree Hn Hp (Hh _)).
  eexists _, _. split; [reflexivity|]. cbn. repeat split; eauto.
Qed.

(** X5. Register, then log in. Under the hasher's contract that a password
    verifies against its own hash, a registration as in X4 followed by a
    login with the same number and password succeeds: the answer carries
    the record just created and the token signed over its id and the role
    [customer]. A login with a password the hasher rejects for that hash is
    answered 400 "Invalid Password". *)
Theorem register_then_login req_r req_l w name phone password :
  endpoint req_r = register name phone password ->
  endpoint req_l = login phone password ->
  faults w = [] ->
  User_with_phone phone (users w) = None ->
  name <> "" -> phone <> "" ->
  (forall salt, bcrypt_hash password 10 salt <> "") ->
  (forall salt, bcrypt_compare password (bcrypt_hash password 10 salt) = true) ->
  exists w' u,
    app req_r w = (w', Resolved (res_status_json 201 (JMessage "Customer Registered")))
    /\ User.name u = name /\ User.phoneNumber u = phone
    /\ app req_l w'
       = (w', Resolved (res_json (JLogin "Login Success"
                 (jwt_sign (Identity.mk (User._id u) "customer") SECRET "7d" (clock w'))
                 u)))
    /\ (forall req other,
          endpoint req = login phone other ->
          bcrypt_compare other (User.password u) = false ->
          app req w' = (w', Resolved (res_status_json 400 (JError "Invalid Password")))).
Proof.
  intros Er El Hf Hfree Hn Hp Hh Hc. unfold app. rewrite Er, El. cbn [route fst snd run].
  rewrite (post_register_free name phone password req_r w Hf Hfree Hn Hp (Hh _)).
  exists (after_create (created name phone password "customer" w) w),
         (created name phone password "customer" w).
  split; [reflexivity|]. split; [reflexivity|]. split; [reflexivity|].
  assert (User_with_phone phone
            (users (after_create (created name phone password "customer" w) w))
          = Some (created name phone password "customer" w)) as Hfound.
  { unfold after_create. cbn [users with_users].
    rewrite User_with_phone_app, Hfree. cbn [created User.phoneNumber].
    now rewrite bool_decide_eq_true_2. }
  split.
  - unfold post_login, User_findOne, bind, ret, Date_now.
    rewrite store_call_answers by exact Hf. rewrite Hfound. cbn [User.password created].
    now rewrite Hc.
  - intros req other Eo Hw. rewrite Eo. cbn [route fst snd run].
    unfold post_login, User_findOne, bind, ret, Date_now.
    rewrite store_call_answers by exact Hf. rewrite Hfound. now rewrite Hw.
Qed.

(** X6. The director's two creating endpoints. For a caller authenticated
    as [director], a free phone number, the store answering and non-empty
    fields, create-admin answers "Admin Created Successfully" and
    create-driver "Driver Created Successfully"; each adds one user, last,
    with the role [admin], respectively [driver], active, and leaves
    bookings and vehicles alone. *)
Theorem director_creates_admin_and_driver req w u name phone password :
  authenticateToken req w = (w, Resolved (Next (with_user u req))) ->
  Identity.role u = "director" ->
  faults w = [] ->
  User_with_phone phone (users w) = None ->
  name <> "" -> phone <> "" ->
  (forall salt, bcrypt_hash password 10 salt <> "") ->
  (endpoint req = director_create_admin name phone password ->
   exists w' a,
     app req w = (w', Resolved (res_json (JMessage "Admin Created Successfully")))
     /\ users w' = (users w ++ [a])%list
     /\ User.name a = name /\ User.phoneNumber a = phone
     /\ User.role a = "admin" /\ User.isActive a = true
     /\ bookings w' = bookings w /\ vehicles w' = vehicles w)
  /\ (endpoint req = director_create_driver name phone password ->
      exists w' d,
        app req w = (w', Resolved (res_json (JMessage "Driver Created Successfully")))
        /\ users w' = (users w ++ [d])%list
        /\ User.name d = name /\ User.phoneNumber d = phone
        /\ User.role d = "driver" /\ User.isActive d = true
        /\ bookings w' = bookings w /\ vehicles w' = vehicles w).
Proof.
  intros Ha Hr Hf Hfree Hn Hp Hh.
  assert (Identity.role u ∈ ["director"]) as Hin by (rewrite Hr; apply list_elem_of_here).
  split; intros Ee;
    (rewrite (app_granted req w u ["director"]); [| now rewrite Ee | exact Ha | exact Hin]);
    rewrite Ee; cbn [route snd].
  - rewrite (post_director_create_admin_free name phone password _ w Hf Hfree Hn Hp (Hh _)).
    eexists _, _. split; [reflexivity|]. cbn. repeat split.
  - rewrite (post_director_create_driver_free name phone password _ w Hf Hfree Hn Hp (Hh _)).
    eexists _, _. split; [reflexivity|]. cbn. repeat split.
Qed.

(** ** Booking *)

Lemma User_with_id_Some id us u : User_with_id id us = Some u -> User._id u = id.
Proof.
  unfold User_with_id. intros Hf. apply find_some in Hf as [_ Hp].
  now apply bool_decide_eq_true_1 in Hp.
Qed.

Lemma Booking_validate_pending i c n p v t f o d a now :
  Booking_validate (Booking.mk i c n p v t f o d a "pending" now) = [].
Proof. reflexivity. Qed.

Lemma post_book_found body req w c customer :
  user req = Some c ->
  faults w = [] ->
  User_with_id (Identity.id c) (users w) = Some customer ->
  post_book body req w
  = (after_book (booked customer body w) w,
     Resolved (res_status_json 201 (JMessage "Booking Created"))).
Proof.
  intros Hu Hf Hc.
  unfold post_book, req_user_id, User_findById, new_Booking, Booking_save_new,
    try_catch, bind, ret, fresh, Date_now.
  rewrite Hu, (store_call_answers _ _ Hf), Hc.
  cbn [next_id clock with_next_id]. rewrite Booking_validate_pending.
  now rewrite store_call_answers by exact Hf.
Qed.

(** The authentication guard reads the world's clock only. *)
Lemma authenticateToken_same_clock req w w' u :
  authenticateToken req w = (w, Resolved (Next (with_user u req))) ->
  clock w' = clock w ->
  authenticateToken req w' = (w', Resolved (Next (with_user u req))).
Proof.
  intros Ha Hc.
  destruct (authenticateToken_cases req w) as [(r & E & _) | (t & u' & Eh & El & Hne & Ev & E)];
    rewrite E in Ha; [discriminate|].
  injection Ha as Hu.
  rewrite (authenticateToken_token req w' t Eh El Hne), Hc, Ev. now rewrite Hu.
Qed.

Lemma get_my_bookings_own req w c :
  user req = Some c -> faults w = [] ->
  get_my_bookings req w
  = (w, Resolved (res_json (JBookings (own_bookings (Identity.id c) (bookings w))))).
Proof.
  intros Hu Hf. unfold get_my_bookings, req_user_id, Booking_find, bind, ret.
  now rewrite Hu, (store_call_answers _ _ Hf).
Qed.

(** X7. A booking made by a caller authenticated as [customer] whose user
    record exists, with the store answering: the answer is 201 "Booking
    Created" and the Bookings collection gains exactly one record, last,
    owned by the caller, carrying the name and phone number of the caller's
    user record as they are now, the six fields of the body as given, the
    status [pending] and the current time; users and vehicles are
    untouched. *)
Theorem book_creates_pending_booking req w u customer body :
  endpoint req = book body ->
  authenticateToken req w = (w, Resolved (Next (with_user u req))) ->
  Identity.role u = "customer" ->
  faults w = [] ->
  User_with_id (Identity.id u) (users w) = Some customer ->
  exists w' b,
    app req w = (w', Resolved (res_status_json 201 (JMessage "Booking Created")))
    /\ bookings w' = (bookings w ++ [b])%list
    /\ Booking.customerId b = Identity.id u
    /\ Booking.customerName b = Some (User.name customer)
    /\ Booking.customerPhone b = Some (User.phoneNumber customer)
    /\ Booking.status b = "pending"
    /\ Booking.vehicleId b = Booking.f_vehicleId body
    /\ Booking.vehicleType b = Booking.f_vehicleType body
    /\ Booking.fromLocation b = Booking.f_fromLocation body
    /\ Booking.toLocation b = Booking.f_toLocation body
    /\ Booking.travelDate b = Booking.f_travelDate body
    /\ Booking.amount b = Booking.f_amount body
    /\ Booking.createdAt b = clock w
    /\ users w' = users w /\ vehicles w' = vehicles w.
Proof.
  intros Ee Ha Hr Hf Hc.
  assert (Identity.role u ∈ ["customer"]) as Hin by (rewrite Hr; apply list_elem_of_here).
  rewrite (app_granted req w u ["customer"]); [| now rewrite Ee | exact Ha | exact Hin].
  rewrite Ee. cbn [route snd].
  rewrite (post_book_found body (with_user u req) w u customer eq_refl Hf Hc).
  exists (after_book (booked customer body w) w), (booked customer body w).
  split; [reflexivity|]. cbn. repeat split. exact (User_with_id_Some _ _ _ Hc).
Qed.

(** X8. Book, then list. After a booking as in X7, the caller's
    my-bookings is what it was with the new booking added last, and the
    my-bookings of a customer with another id is what it was. *)
Theorem book_then_my_bookings req_b req_m req_o w u v customer body :
  endpoint req_b = book body ->
  endpoint req_m = my_bookings -> endpoint req_o = my_bookings ->
  authenticateToken req_b w = (w, Resolved (Next (with_user u req_b))) ->
  authenticateToken req_m w = (w, Resolved (Next (with_user u req_m))) ->
  authenticateToken req_o w = (w, Resolved (Next (with_user v req_o))) ->
  Identity.role u = "customer" -> Identity.role v = "customer" ->
  Identity.id v <> Identity.id u ->
  faults w = [] ->
  User_with_id (Identity.id u) (users w) = Some customer ->
  exists w' b,
    app req_b w = (w', Resolved (res_status_json 201 (JMessage "Booking Created")))
    /\ app req_m w'
       = (w', Resolved (res_json (JBookings
                (own_bookings (Identity.id u) (bookings w) ++ [b])%list)))
    /\ app req_o w'
       = (w', Resolved (res_json (JBookings (own_bookings (Identity.id v) (bookings w))))).
Proof.
  intros Eb Em Eo Hab Ham Hao Hru Hrv Hne Hf Hc.
  assert (Identity.role u ∈ ["customer"]) as Hiu by (rewrite Hru; apply list_elem_of_here).
  assert (Identity.role v ∈ ["customer"]) as Hiv by (rewrite Hrv; apply list_elem_of_here).
  set (b := booked customer body w). set (w' := after_book b w).
  exists w', b.
  assert (clock w' = clock w) as Hclock by reflexivity.
  assert (faults w' = []) as Hf' by exact Hf.
  split; [|split].
  - rewrite (app_granted req_b w u ["customer"]); [| now rewrite Eb | exact Hab | exact Hiu].
    rewrite Eb. cbn [route snd].
    exact (post_book_found body (with_user u req_b) w u customer eq_refl Hf Hc).
  - rewrite (app_granted req_m w' u ["customer"]);
      [| now rewrite Em | exact (authenticateToken_same_clock _ _ _ _ Ham Hclock) | exact Hiu].
    rewrite Em. cbn [route snd].
    rewrite (get_my_bookings_own (with_user u req_m) w' u eq_refl Hf').
    unfold own_bookings, w', after_book. cbn [bookings with_bookings].
    rewrite List.filter_app. cbn [List.filter b booked Booking.customerId].
    now rewrite bool_decide_eq_true_2 by exact (User_with_id_Some _ _ _ Hc).
  - rewrite (app_granted req_o w' v ["customer"]);
      [| now rewrite Eo | exact (authenticateToken_same_clock _ _ _ _ Hao Hclock) | exact Hiv].
    rewrite Eo. cbn [route snd].
    rewrite (get_my_bookings_own (with_user v req_o) w' v eq_refl Hf').
    unfold own_bookings, w', after_book. cbn [bookings with_bookings].
    rewrite List.filter_app. cbn [List.filter b booked Booking.customerId].
    rewrite bool_decide_eq_false_2; [now rewrite app_nil_r|].
    rewrite (User_with_id_Some _ _ _ Hc). congruence.
Qed.

(** X9. Booking is all or nothing. Whatever the store does (any script of
    failures) and whether or not the caller's user record exists, a booking
    request of a caller authenticated as [customer] is always answered,
    with 201 or with 500: with 201 exactly one booking owned by the caller
    has been added, with 500 none has; users and vehicles are untouched in
    both cases. *)
Theorem book_all_or_nothing req w u body :
  endpoint req = book body ->
  authenticateToken req w = (w, Resolved (Next (with_user u req))) ->
  Identity.role u = "customer" ->
  exists w' r,
    app req w = (w', Resolved r)
    /\ users w' = users w /\ vehicles w' = vehicles w
    /\ ((statusCode r = 201
         /\ exists b, bookings w' = (bookings w ++ [b])%list
                      /\ Booking.customerId b = Identity.id u)
        \/ (statusCode r = 500 /\ bookings w' = bookings w)).
Proof.
  intros Ee Ha Hr.
  assert (Identity.role u ∈ ["customer"]) as Hin by (rewrite Hr; apply list_elem_of_here).
  rewrite (app_granted req w u ["customer"]); [| now rewrite Ee | exact Ha | exact Hin].
  rewrite Ee. cbn [route snd]. clear Ee Ha Hr Hin.
  unfold post_book, req_user_id, User_findById, new_Booking, Booking_save_new,
    try_catch, bind, ret, throw, internal_error, fresh, Date_now, store_call.
  cbn [user with_user].
  destruct w as [us vs bs n c fs].
  cbn [users vehicles bookings next_id clock faults with_faults with_next_id with_bookings].
  destruct fs as [|[m|] fs].
  - destruct (User_with_id (Identity.id u) us) as [customer|] eqn:Hc.
    + rewrite Booking_validate_pending. cbn. eexists _, _. split; [reflexivity|].
      cbn. repeat split. left. split; [reflexivity|]. eexists. split; [reflexivity|].
      exact (User_with_id_Some _ _ _ Hc).
    + eexists _, _. split; [reflexivity|]. cbn. repeat split. now right.
  - eexists _, _. split; [reflexivity|]. cbn. repeat split. now right.
  - cbn [users vehicles bookings next_id clock faults with_faults with_next_id with_bookings].
    destruct (User_with_id (Identity.id u) us) as [customer|] eqn:Hc.
    + rewrite Booking_validate_pending.
      cbn [users vehicles bookings next_id clock faults with_faults with_next_id
             with_bookings].
      destruct fs as [|[m|] fs]; eexists _, _; (split; [reflexivity|]); cbn; repeat split;
        first [ now right
              | left; split; [reflexivity|]; eexists; split; [reflexivity|];
                exact (User_with_id_Some _ _ _ Hc) ].
    + eexists _, _. split; [reflexivity|]. cbn. repeat split. now right.
Qed.

(** ** Toggling the active flag *)

Lemma update_first_fixes {A} (p : A -> bool) f (l : list A) x :
  List.find p l = Some x -> f x = x -> update_first p f l = l.
Proof.
  induction l as [|y l IH]; cbn; [reflexivity|]. destruct (p y).
  - intros [= ->] ->. reflexivity.
  - intros Hf Hx. now rewrite IH.
Qed.

Lemma update_first_twice {A} (p : A -> bool) f g (l : list A) :
  (forall y, p (f y) = p y) ->
  update_first p g (update_first p f l) = update_first p (fun y => g (f y)) l.
Proof.
  intros Hp. induction l as [|y l IH]; cbn; [reflexivity|].
  destruct (p y) eqn:Ey; cbn.
  - now rewrite Hp, Ey.
  - now rewrite Ey, IH.
Qed.

Lemma find_update_first {A} (p : A -> bool) f (l : list A) x :
  (forall y, p (f y) = p y) ->
  List.find p l = Some x -> List.find p (update_first p f l) = Some (f x).
Proof.
  intros Hp. induction l as [|y l IH]; cbn; [discriminate|].
  destruct (p y) eqn:Ey; cbn.
  - intros [= ->]. now rewrite Hp, Ey.
  - intros Hf. rewrite Ey. exact (IH Hf).
Qed.

Lemma find_update_first_none {A} (p : A -> bool) f (l : list A) :
  List.find p l = None -> update_first p f l = l.
Proof.
  induction l as [|y l IH]; cbn; [reflexivity|].
  destruct (p y); [discriminate|]. intros Hf. now rewrite IH.
Qed.

Lemma set_isActive_same u : User.set_isActive (User.isActive u) u = u.
Proof. now destruct u. Qed.

Lemma put_director_toggle_user_found id req w found :
  faults w = [] ->
  User_with_id id (users w) = Some found ->
  put_director_toggle_user id req w
  = (with_users (toggled found (users w)) w,
     Resolved (res_json (JMessage "User status updated"))).
Proof.
  intros Hf Hu.
  unfold put_director_toggle_user, User_findById, User_save_isActive, bind, ret.
  rewrite (store_call_answers _ _ Hf), Hu.
  now rewrite store_call_answers by exact Hf.
Qed.

Lemma User_with_id_toggled found us :
  User_with_id (User._id found) us = Some found ->
  User_with_id (User._id found) (toggled found us)
  = Some (User.set_isActive (negb (User.isActive found)) found).
Proof.
  intros Hu. unfold User_with_id, toggled. now apply find_update_first.
Qed.

Lemma toggled_twice found us :
  User_with_id (User._id found) us = Some found ->
  toggled (User.set_isActive (negb (User.isActive found)) found) (toggled found us) = us.
Proof.
  intros Hu. unfold toggled. cbn [User._id User.isActive User.set_isActive].
  rewrite update_first_twice by reflexivity.
  apply (update_first_fixes _ _ _ found); [exact Hu|].
  cbn. rewrite negb_involutive. destruct found; reflexivity.
Qed.

(** The caller of the director's endpoints, through the guards. *)
Lemma app_director req w u :
  section_4_3_roles (endpoint req) = Some ["director"] ->
  authenticateToken req w = (w, Resolved (Next (with_user u req))) ->
  Identity.role u = "director" ->
  app req w = (route (endpoint req)).2 (with_user u req) w.
Proof.
  intros Er Ha Hr. apply (app_granted req w u ["director"] Er Ha).
  rewrite Hr. apply list_elem_of_here.
Qed.

(** X10. Toggling twice. For a caller authenticated as [director], with
    the store answering, toggle-user on the id of an existing user answers
    "User status updated" and flips that user's active flag; the same
    request again brings the world back to exactly what it was. *)
Theorem toggle_user_twice_restores req w u id found :
  endpoint req = director_toggle_user id ->
  authenticateToken req w = (w, Resolved (Next (with_user u req))) ->
  Identity.role u = "director" ->
  faults w = [] ->
  User_with_id id (users w) = Some found ->
  exists w1,
    app req w = (w1, Resolved (res_json (JMessage "User status updated")))
    /\ User_with_id id (users w1)
       = Some (User.set_isActive (negb (User.isActive found)) found)
    /\ app req w1 = (w, Resolved (res_json (JMessage "User status updated"))).
Proof.
  intros Ee Ha Hr Hf Hu.
  pose proof (User_with_id_Some _ _ _ Hu) as Hid. subst id.
  exists (with_users (toggled found (users w)) w).
  assert (User_with_id (User._id found) (toggled found (users w))
          = Some (User.set_isActive (negb (User.isActive found)) found)) as Hu1
    by exact (User_with_id_toggled _ _ Hu).
  split; [|split; [exact Hu1|]].
  - rewrite (app_director req w u); [| now rewrite Ee | exact Ha | exact Hr].
    rewrite Ee. cbn [route snd].
    exact (put_director_toggle_user_found _ _ w found Hf Hu).
  - rewrite (app_director req _ u);
      [| now rewrite Ee
       | exact (authenticateToken_same_clock req w (with_users (toggled found (users w)) w)
                  u Ha eq_refl)
       | exact Hr].
    rewrite Ee. cbn [route snd].
    rewrite (put_director_toggle_user_found (User._id found) (with_user u req)
               (with_users (toggled found (users w)) w) _ Hf Hu1).
    cbn [users with_users]. rewrite (toggled_twice _ _ Hu). now destruct w.
Qed.

(** X11. What toggle-user touches. In the conditions of X10 the Users
    collection keeps its length, every user with another id is unchanged
    in place, and the toggled user keeps its id, name, phone number,
    password hash, role and creation time; bookings and vehicles are
    untouched. *)
Theorem toggle_user_changes_one_flag req w u id found :
  endpoint req = director_toggle_user id ->
  authenticateToken req w = (w, Resolved (Next (with_user u req))) ->
  Identity.role u = "director" ->
  faults w = [] ->
  User_with_id id (users w) = Some found ->
  exists w1,
    app req w = (w1, Resolved (res_json (JMessage "User status updated")))
    /\ length (users w1) = length (users w)
    /\ (forall i x, users w !! i = Some x -> User._id x <> id -> users w1 !! i = Some x)
    /\ (forall i x, users w !! i = Some x ->
        exists x', users w1 !! i = Some x'
                   /\ User._id x' = User._id x /\ User.name x' = User.name x
                   /\ User.phoneNumber x' = User.phoneNumber x
                   /\ User.password x' = User.password x /\ User.role x' = User.role x
                   /\ User.createdAt x' = User.createdAt x)
    /\ bookings w1 = bookings w /\ vehicles w1 = vehicles w.
Proof.
  intros Ee Ha Hr Hf Hu.
  pose proof (User_with_id_Some _ _ _ Hu) as Hid. subst id.
  exists (with_users (toggled found (users w)) w).
  split; [|cbn [users bookings vehicles with_users]; split; [|split; [|split]]].
  - rewrite (app_director req w u); [| now rewrite Ee | exact Ha | exact Hr].
    rewrite Ee. cbn [route snd].
    exact (put_director_toggle_user_found _ _ w found Hf Hu).
  - apply length_update_first.
  - intros i x Hi Hne. apply update_first_other; [exact Hi|].
    now apply bool_decide_eq_false_2.
  - intros i x Hi.
    destruct (update_first_lookup (fun x => bool_decide (User._id x = User._id found))
                (User.set_isActive (negb (User.isActive found))) _ i x Hi) as [E | [_ E]].
    + exists x. now rewrite <- E.
    + eexists. split; [exact E|]. cbn. repeat split.
  - split; reflexivity.
Qed.

(** X12. Toggle-user on an id no user has: the handler reads a field of
    the lookup's [null] result, so its promise rejects; no response is
    sent and the world is as it was. *)
Theorem toggle_unknown_user_sends_nothing req w u id :
  endpoint req = director_toggle_user id ->
  authenticateToken req w = (w, Resolved (Next (with_user u req))) ->
  Identity.role u = "director" ->
  faults w = [] ->
  User_with_id id (users w) = None ->
  exists msg, app req w = (w, Rejected (TypeError msg)).
Proof.
  intros Ee Ha Hr Hf Hu.
  rewrite (app_director req w u); [| now rewrite Ee | exact Ha | exact Hr].
  rewrite Ee. cbn [route snd].
  unfold put_director_toggle_user, User_findById, bind, throw.
  rewrite (store_call_answers _ _ Hf), Hu. now eexists.
Qed.

Lemma User_with_phone_toggled found p us :
  User_with_id (User._id found) us = Some found ->
  User_with_phone p us = Some found ->
  User_with_phone p (toggled found us)
  = Some (User.set_isActive (negb (User.isActive found)) found).
Proof.
  intros Hi Hp. destruct (User_with_phone_Some _ _ _ Hp) as [_ Hphone].
  revert Hi Hp. unfold User_with_id, User_with_phone, toggled.
  induction us as [|x us IH]; cbn; [discriminate|].
  destruct (bool_decide (User._id x = User._id found)) eqn:Ei.
  - intros [= ->] _. cbn. now rewrite bool_decide_eq_true_2.
  - destruct (bool_decide (User.phoneNumber x = p)) eqn:Ep.
    + intros _ [= ->]. apply bool_decide_eq_false_1 in Ei. now contradiction Ei.
    + intros Hi Hp. cbn. rewrite Ep. exact (IH Hi Hp).
Qed.

(** X13. The active flag is never consulted. After a director has
    deactivated a user (toggle-user on an active user), a login with that
    user's number and password still succeeds, with the token signed over
    the same id and role and the record showing the flag off; and every
    request that passed the authentication guard before still passes it,
    with the same identity. *)
Theorem deactivated_user_still_logs_in req_t req_l w u found phone password :
  endpoint req_t = director_toggle_user (User._id found) ->
  authenticateToken req_t w = (w, Resolved (Next (with_user u req_t))) ->
  Identity.role u = "director" ->
  faults w = [] ->
  User_with_id (User._id found) (users w) = Some found ->
  User_with_phone phone (users w) = Some found ->
  User.isActive found = true ->
  bcrypt_compare password (User.password found) = true ->
  endpoint req_l = login phone password ->
  exists w1,
    app req_t w = (w1, Resolved (res_json (JMessage "User status updated")))
    /\ User_with_phone phone (users w1) = Some (User.set_isActive false found)
    /\ app req_l w1
       = (w1, Resolved (res_json (JLogin "Login Success"
                 (jwt_sign (Identity.mk (User._id found) (User.role found)) SECRET "7d"
                           (clock w))
                 (User.set_isActive false found))))
    /\ (forall req v,
          authenticateToken req w = (w, Resolved (Next (with_user v req))) ->
          authenticateToken req w1 = (w1, Resolved (Next (with_user v req)))).
Proof.
  intros Et Ha Hr Hf Hi Hp Hact Hc El.
  exists (with_users (toggled found (users w)) w).
  assert (User_with_phone phone (toggled found (users w))
          = Some (User.set_isActive false found)) as Hp1.
  { rewrite (User_with_phone_toggled _ _ _ Hi Hp). now rewrite Hact. }
  split; [|split; [exact Hp1|split]].
  - rewrite (app_director req_t w u); [| now rewrite Et | exact Ha | exact Hr].
    rewrite Et. cbn [route snd].
    exact (put_director_toggle_user_found _ _ w found Hf Hi).
  - unfold app. rewrite El. cbn [route fst snd run].
    unfold post_login, User_findOne, bind, ret, Date_now.
    rewrite store_call_answers by exact Hf. cbn [users with_users]. rewrite Hp1.
    cbn [User.password User.set_isActive User._id User.role]. now rewrite Hc.
  - intros req v Hv.
    exact (authenticateToken_same_clock req w (with_users (toggled found (users w)) w)
             v Hv eq_refl).
Qed.

(** ** Updating a booking's status *)

Lemma update_first_ext {A} (p : A -> bool) f g (l : list A) :
  (forall y, f y = g y) -> update_first p f l = update_first p g l.
Proof.
  intros Hfg. induction l as [|y l IH]; cbn; [reflexivity|].
  destruct (p y); [now rewrite Hfg | now rewrite IH].
Qed.

Lemma with_bookings_same w : with_bookings (bookings w) w = w.
Proof. now destruct w. Qed.

Lemma put_admin_update_status_effect id status req w :
  faults w = [] ->
  put_admin_update_status id status req w
  = (with_bookings (update_first (fun b => bool_decide (Booking._id b = id))
                                 (Booking.set_status status) (bookings w)) w,
     Resolved (res_json (JMessage "Status Updated"))).
Proof.
  intros Hf. unfold put_admin_update_status, Booking_findByIdAndUpdate, bind, ret.
  now rewrite (store_call_answers _ _ Hf).
Qed.

(** The caller of the staff endpoints, through the guards. *)
Lemma app_staff req w u :
  section_4_3_roles (endpoint req) = Some ["admin"; "director"] ->
  authenticateToken req w = (w, Resolved (Next (with_user u req))) ->
  Identity.role u ∈ ["admin"; "director"] ->
  app req w = (route (endpoint req)).2 (with_user u req) w.
Proof. intros Er Ha Hr. exact (app_granted req w u _ Er Ha Hr). Qed.

(** X14. Update-status on an id no booking has: the answer is still
    "Status Updated", and the world is exactly as it was. *)
Theorem update_status_unknown_id_is_silent req w u id status :
  endpoint req = admin_update_status id status ->
  authenticateToken req w = (w, Resolved (Next (with_user u req))) ->
  Identity.role u ∈ ["admin"; "director"] ->
  faults w = [] ->
  (forall b, b ∈ bookings w -> Booking._id b <> id) ->
  app req w = (w, Resolved (res_json (JMessage "Status Updated"))).
Proof.
  intros Ee Ha Hr Hf Hnone.
  rewrite (app_staff req w u); [| now rewrite Ee | exact Ha | exact Hr].
  rewrite Ee. cbn [route snd]. rewrite (put_admin_update_status_effect _ _ _ _ Hf).
  rewrite find_update_first_none; [now rewrite with_bookings_same|].
  destruct (List.find _ (bookings w)) as [b|] eqn:E; [|reflexivity].
  apply find_some in E as [Hin Hb]. apply bool_decide_eq_true_1 in Hb.
  exfalso. exact (Hnone b (proj2 (list_elem_of_In _ _) Hin) Hb).
Qed.

(** X15. The last status written wins. Two update-status requests on the
    same id, one after the other, leave the world exactly as the second
    alone would have; in particular repeating a request changes nothing
    more. *)
Theorem update_status_last_write_wins req1 req2 w u1 u2 id s1 s2 :
  endpoint req1 = admin_update_status id s1 ->
  endpoint req2 = admin_update_status id s2 ->
  authenticateToken req1 w = (w, Resolved (Next (with_user u1 req1))) ->
  authenticateToken req2 w = (w, Resolved (Next (with_user u2 req2))) ->
  Identity.role u1 ∈ ["admin"; "director"] ->
  Identity.role u2 ∈ ["admin"; "director"] ->
  faults w = [] ->
  exists w1,
    app req1 w = (w1, Resolved (res_json (JMessage "Status Updated")))
    /\ app req2 w1 = app req2 w.
Proof.
  intros E1 E2 Ha1 Ha2 Hr1 Hr2 Hf.
  set (p := fun b => bool_decide (Booking._id b = id)).
  exists (with_bookings (update_first p (Booking.set_status s1) (bookings w)) w).
  split.
  - rewrite (app_staff req1 w u1); [| now rewrite E1 | exact Ha1 | exact Hr1].
    rewrite E1. cbn [route snd]. exact (put_admin_update_status_effect _ _ _ _ Hf).
  - rewrite (app_staff req2 w u2); [| now rewrite E2 | exact Ha2 | exact Hr2].
    rewrite (app_staff req2 _ u2);
      [| now rewrite E2
       | exact (authenticateToken_same_clock req2 w
                  (with_bookings (update_first p (Booking.set_status s1) (bookings w)) w)
                  u2 Ha2 eq_refl)
       | exact Hr2].
    rewrite E2. cbn [route snd].
    rewrite (put_admin_update_status_effect id s2 _ w Hf).
    rewrite put_admin_update_status_effect by exact Hf.
    cbn [bookings with_bookings]. fold p.
    rewrite update_first_twice by reflexivity.
    rewrite (update_first_ext p _ (Booking.set_status s2)) by reflexivity.
    now destruct w.
Qed.

(** ** Revenue and the life of a booking *)

Lemma get_director_revenue_answers req w :
  faults w = [] ->
  get_director_revenue req w
  = (w, Resolved (res_json
       (let completed :=
          List.filter (fun b => bool_decide (Booking.status b = "completed")) (bookings w) in
        JRevenue (length completed)
                 (fold_left (fun sum b => (sum + amount_or_0 b)%float) completed 0%float)))).
Proof.
  intros Hf. unfold get_director_revenue, Booking_find, bind, ret.
  now rewrite (store_call_answers _ _ Hf).
Qed.





(** X17. A new booking is no revenue. In the conditions of X7, the
    revenue endpoint reports after the booking exactly the totals it
    reported before. *)
Theorem booking_leaves_revenue_unchanged req_b req_r w u d customer body :
  endpoint req_b = book body ->
  endpoint req_r = director_revenue ->
  authenticateToken req_b w = (w, Resolved (Next (with_user u req_b))) ->
  authenticateToken req_r w = (w, Resolved (Next (with_user d req_r))) ->
  Identity.role u = "customer" -> Identity.role d = "director" ->
  faults w = [] ->
  User_with_id (Identity.id u) (users w) = Some customer ->
  exists w1 totals,
    app req_r w = (w, Resolved (res_json totals))
    /\ app req_b w = (w1, Resolved (res_status_json 201 (JMessage "Booking Created")))
    /\ app req_r w1 = (w1, Resolved (res_json totals)).
Proof.
  intros Eb Er Hab Har Hru Hrd Hf Hc.
  assert (Identity.role u ∈ ["customer"]) as Hiu by (rewrite Hru; apply list_elem_of_here).
  set (w1 := after_book (booked customer body w) w).
  eexists w1, _.
  split; [|split].
  - rewrite (app_director req_r w d); [| now rewrite Er | exact Har | exact Hrd].
    rewrite Er. cbn [route snd]. exact (get_director_revenue_answers _ w Hf).
  - rewrite (app_granted req_b w u ["customer"]); [| now rewrite Eb | exact Hab | exact Hiu].
    rewrite Eb. cbn [route snd].
    exact (post_book_found body (with_user u req_b) w u customer eq_refl Hf Hc).
  - rewrite (app_director req_r w1 d);
      [| now rewrite Er | exact (authenticateToken_same_clock req_r w w1 d Har eq_refl)
       | exact Hrd].
    rewrite Er. cbn [route snd]. rewrite (get_director_revenue_answers _ w1 Hf).
    unfold w1, after_book. cbn [bookings with_bookings]. cbn zeta.
    rewrite List.filter_app. cbn [List.filter booked Booking.status].
    rewrite bool_decide_eq_false_2 by discriminate. now rewrite app_nil_r.
Qed.

(** ** Which collection a request can change *)

Ltac unfold_handlers :=
  unfold post_register, post_login, post_book, get_my_bookings, get_admin_bookings,
    put_admin_update_status, get_admin_search, post_director_create_admin,
    post_director_add_vehicle, post_director_create_driver, get_director_revenue,
    put_director_update_vehicle, get_director_all_users, put_director_toggle_user,
    get_director_vehicles,
    User_findOne, User_findById, new_User, User_save_new, User_save_isActive,
    new_Booking, Booking_save_new, Booking_find, Booking_findByIdAndUpdate,
    new_Vehicle, Vehicle_save_new, Vehicle_find, Vehicle_findByIdAndUpdate,
    internal_error.

Lemma handler_keeps_users ep req :
  writes_users ep = false -> keeps users ((route ep).2 req).
Proof. destruct ep; cbn [writes_users route snd]; intros [=]; unfold_handlers; keeps_auto. Qed.

Lemma handler_keeps_bookings ep req :
  writes_bookings ep = false -> keeps bookings ((route ep).2 req).
Proof.
  destruct ep; cbn [writes_bookings route snd]; intros [=]; unfold_handlers; keeps_auto.
Qed.

Lemma handler_keeps_vehicles ep req :
  writes_vehicles ep = false -> keeps vehicles ((route ep).2 req).
Proof.
  destruct ep; cbn [writes_vehicles route snd]; intros [=]; unfold_handlers; keeps_auto.
Qed.

(** X18. Each collection is written by the endpoints made for it and by no
    other. Whatever the request (authenticated or not) and whatever the
    store does, Users is left as it was unless the endpoint is register,
    create-admin, create-driver or toggle-user; Bookings unless it is book
    or update-status; Vehicles unless it is add-vehicle or update-vehicle.
    Login, my-bookings, the two admin listings, revenue, all-users and
    vehicles change none of the three. *)
Theorem collections_written_only_by_their_endpoints req w :
  (if writes_users (endpoint req) then True else users (app req w).1 = users w)
  /\ (if writes_bookings (endpoint req) then True
      else bookings (app req w).1 = bookings w)
  /\ (if writes_vehicles (endpoint req) then True
      else vehicles (app req w).1 = vehicles w).
Proof.
  destruct (app_world req w) as [E | [req' E]]; rewrite E.
  - repeat split; match goal with |- if ?b then _ else _ => destruct b end; auto.
  - split; [|split].
    + destruct (writes_users (endpoint req)) eqn:Ew; [exact I|].
      exact (handler_keeps_users _ req' Ew w).
    + destruct (writes_bookings (endpoint req)) eqn:Ew; [exact I|].
      exact (handler_keeps_bookings _ req' Ew w).
    + destruct (writes_vehicles (endpoint req)) eqn:Ew; [exact I|].
      exact (handler_keeps_vehicles _ req' Ew w).
Qed.

(** ** The stored amounts are numbers *)

Lemma update_first_Forall {A} (P : A -> Prop) (p : A -> bool) f (l : list A) :
  (forall x, P x -> P (f x)) -> Forall P l -> Forall P (update_first p f l).
Proof.
  intros Hf. induction 1 as [|x l Hx Hl IH]; cbn [update_first]; [constructor|].
  destruct (p x); constructor; auto.
Qed.

Lemma post_book_amounts body req w :
  amounts_are_numbers (bookings w) -> Booking.f_amount body <> Some nan ->
  amounts_are_numbers (bookings (post_book body req w).1).
Proof.
  intros Hw Hb.
  assert (forall i c n p now,
            amounts_are_numbers
              (bookings w ++ [Booking.mk i c n p (Booking.f_vehicleId body)
                                (Booking.f_vehicleType body) (Booking.f_fromLocation body)
                                (Booking.f_toLocation body) (Booking.f_travelDate body)
                                (Booking.f_amount body) "pending" now])) as Hadd.
  { intros. apply Forall_app. split; [exact Hw|]. now repeat constructor. }
  unfold post_book, req_user_id, User_findById, new_Booking, Booking_save_new,
    try_catch, bind, ret, throw, internal_error, fresh, Date_now, store_call.
  destruct w as [us vs bs n c fs].
  cbn [users vehicles bookings next_id clock faults with_faults with_next_id with_bookings]
    in *.
  destruct (user req) as [u|]; [|exact Hw].
  destruct fs as [|[m|] fs];
    cbn [users vehicles bookings next_id clock faults with_faults with_next_id
           with_bookings fst];
    try exact Hw.
  - destruct (User_with_id (Identity.id u) us) as [customer|]; [|exact Hw].
    rewrite Booking_validate_pending. cbn. apply Hadd.
  - destruct (User_with_id (Identity.id u) us) as [customer|]; [|exact Hw].
    rewrite Booking_validate_pending.
    cbn [users vehicles bookings next_id clock faults with_faults with_next_id
           with_bookings].
    destruct fs as [|[m|] fs]; cbn; first [exact Hw | apply Hadd].
Qed.

Lemma put_admin_update_status_amounts id status req w :
  amounts_are_numbers (bookings w) ->
  amounts_are_numbers (bookings (put_admin_update_status id status req w).1).
Proof.
  intros Hw.
  unfold put_admin_update_status, Booking_findByIdAndUpdate, bind, ret, store_call.
  destruct w as [us vs bs n c fs].
  cbn [users vehicles bookings next_id clock faults with_faults with_bookings] in *.
  destruct fs as [|[m|] fs]; cbn; try exact Hw;
    apply update_first_Forall; auto.
Qed.

(** X27. The stored amounts stay numbers. Whatever the request
    (authenticated or not) and whatever the store does: when no stored
    amount is NaN, and the body of a booking request carries none, no
    stored amount is NaN after the request. The amounts that the revenue
    endpoint adds are therefore numbers in every state the server reaches
    from one where they are. *)
Theorem amounts_stay_numbers req w :
  amounts_are_numbers (bookings w) ->
  (forall body, endpoint req = book body -> Booking.f_amount body <> Some nan) ->
  amounts_are_numbers (bookings (app req w).1).
Proof.
  intros Hw Hbody.
  destruct (app_world req w) as [E | [req' E]]; rewrite E; [exact Hw|].
  destruct (writes_bookings (endpoint req)) eqn:Ew.
  - destruct (endpoint req) as [| |body| | |id status| | | | | | | | |] eqn:Ee;
      try discriminate Ew; cbn [route snd].
    + apply post_book_amounts; [exact Hw | now apply Hbody].
    + now apply put_admin_update_status_amounts.
  - now rewrite (handler_keeps_bookings _ req' Ew w).
Qed.

(** ** Roles *)

Lemma roles_update_isActive q b us :
  map User.role (update_first q (User.set_isActive b) us) = map User.role us.
Proof.
  induction us as [|u us IH]; cbn; [reflexivity|].
  destruct (q u); cbn; [reflexivity | now rewrite IH].
Qed.

Ltac creator_roles w r :=
  unfold User_findOne, User_save_new, new_User, bcrypt_hash_async;
  unfold try_catch, bind, ret, throw, internal_error, store_call, fresh, Date_now;
  unfold roles_step, roles_of;
  destruct w as [us vs bs n c fs];
  cbn [users faults with_faults with_next_id with_users fst snd];
  match goal with
  | |- context [User_with_phone ?p us] => destruct (User_with_phone p us)
  end;
  destruct fs as [|[?|] [|[?|] ?]];
  cbn [users faults with_faults with_next_id with_users fst snd];
  try match goal with
      | |- context [match User_validate ?u with _ => _ end] => destruct (User_validate u)
      end;
  cbn [users faults with_faults with_next_id with_users fst snd];
  first [ left; reflexivity
        | right; exists r; split;
          [unfold created_roles; rewrite !elem_of_cons; tauto
          | rewrite map_app; reflexivity] ].

Lemma handler_roles ep req w : roles_step w ((route ep).2 req w).1.
Proof.
  destruct (writes_users ep) eqn:Ew.
  - destruct ep; try discriminate Ew; cbn [route snd].
    + unfold post_register. creator_roles w "customer".
    + unfold post_director_create_admin. creator_roles w "admin".
    + unfold post_director_create_driver. creator_roles w "driver".
    + left. revert w. change (keeps roles_of (put_director_toggle_user id req)).
      unfold put_director_toggle_user, User_findById, User_save_isActive. keeps_auto.
      unfold roles_of. cbn. apply roles_update_isActive.
  - left. unfold roles_of. now rewrite (handler_keeps_users ep req Ew w).
Qed.

Lemma app_roles req w : roles_step w (app req w).1.
Proof.
  destruct (app_world req w) as [E | [req' E]]; rewrite E; [now left|].
  apply handler_roles.
Qed.

Lemma roles_step_directors w w' : roles_step w w' -> directors w' = directors w.
Proof.
  unfold directors. intros [-> | (r & Hr & ->)]; [reflexivity|].
  rewrite List.filter_app, length_app. cbn [List.filter].
  unfold created_roles in Hr. rewrite !elem_of_cons, elem_of_nil in Hr.
  destruct Hr as [-> | [-> | [-> | []]]];
    rewrite bool_decide_eq_false_2 by discriminate; cbn [length]; lia.
Qed.

(** X19. No request makes a director, and none changes a role. Whatever
    the request and whatever the store does, the roles of the stored users
    are afterwards what they were, in order, with at most one role added at
    the end, which is then [customer], [admin] or [driver]; so the number
    of directors is the same after any sequence of requests. *)
Theorem no_request_makes_a_director req w :
  roles_step w (app req w).1
  /\ forall reqs, directors (serve reqs w) = directors w.
Proof.
  split; [apply app_roles|].
  intros reqs. revert w. induction reqs as [|r reqs IH]; intros w; cbn [serve];
    [reflexivity|].
  rewrite IH. apply roles_step_directors, app_roles.
Qed.

(** ** The staff's listings *)

Lemma filter_all {A} (l : list A) : List.filter (fun _ => true) l = l.
Proof. induction l as [|x l IH]; cbn; [reflexivity | now rewrite IH]. Qed.

(** X20. The two listings of the staff. For a caller authenticated as
    [admin] or [director], with the store answering, admin/bookings answers
    with the whole Bookings collection, in order, and admin/search with
    exactly the bookings whose stored customer phone is the given one: a
    booking without one is never found, and the match is on the whole
    string. Neither changes the world. *)
Theorem staff_listings req w u :
  authenticateToken req w = (w, Resolved (Next (with_user u req))) ->
  Identity.role u ∈ ["admin"; "director"] ->
  faults w = [] ->
  (endpoint req = admin_bookings ->
   app req w = (w, Resolved (res_json (JBookings (bookings w)))))
  /\ (forall phone, endpoint req = admin_search phone ->
      exists found, app req w = (w, Resolved (res_json (JBookings found)))
        /\ (forall b, b ∈ found <->
                      b ∈ bookings w /\ Booking.customerPhone b = Some phone)).
Proof.
  intros Ha Hr Hf. split.
  - intros Ee. rewrite (app_staff req w u); [| now rewrite Ee | exact Ha | exact Hr].
    rewrite Ee. cbn [route snd]. unfold get_admin_bookings, Booking_find, bind, ret.
    now rewrite (store_call_answers _ _ Hf), filter_all.
  - intros phone Ee. eexists. split.
    + rewrite (app_staff req w u); [| now rewrite Ee | exact Ha | exact Hr].
      rewrite Ee. cbn [route snd]. unfold get_admin_search, Booking_find, bind, ret.
      now rewrite (store_call_answers _ _ Hf).
    + intros b. rewrite !list_elem_of_In, filter_In. now rewrite bool_decide_eq_true.
Qed.

(** ** The Authorization header *)

Lemma split_no_sep sep s : contains sep s = false -> split sep s = [s].
Proof.
  induction s as [|c s IH]; cbn [contains split]; [reflexivity|].
  intros Hc. apply orb_false_iff in Hc as [Hc Hs].
  rewrite Hc. now rewrite (IH Hs).
Qed.

Lemma split_app_sep sep a b :
  contains sep a = false -> split sep (a ++ String sep b) = a :: split sep b.
Proof.
  induction a as [|c a IH].
  - intros _. change ("" ++ String sep b) with (String sep b). cbn [split].
    now rewrite bool_decide_eq_true_2.
  - cbn [contains]. intros Hc. apply orb_false_iff in Hc as [Hc Ha].
    change (String c a ++ String sep b) with (String c (a ++ String sep b)).
    cbn [split]. rewrite Hc. now rewrite (IH Ha).
Qed.

(** X21. How the header is read. Without a (non-empty) cookie, a header
    made of a word, one space and a token without spaces yields that
    token, whatever the word is: "Bearer" is not looked for. A non-empty
    header without any space, and a header whose word is followed by two
    spaces, yield no token: the guard answers 401 "Token missing". *)
Theorem header_is_split_on_spaces req w :
  truthy (cookies req !! "jwt_token") = false ->
  (forall scheme token,
     headers req !! "authorization" = Some (scheme ++ " " ++ token) ->
     contains " " scheme = false -> contains " " token = false ->
     locate_token req = Some token)
  /\ (forall h,
      headers req !! "authorization" = Some h -> h <> "" -> contains " " h = false ->
      authenticateToken req w
      = (w, Resolved (Respond (res_status_json 401 (JError "Token missing")))))
  /\ (forall scheme rest,
      headers req !! "authorization" = Some (scheme ++ "  " ++ rest) ->
      contains " " scheme = false ->
      authenticateToken req w
      = (w, Resolved (Respond (res_status_json 401 (JError "Token missing"))))).
Proof.
  intros Hc.
  assert (forall h, headers req !! "authorization" = Some h -> h <> "" ->
                    truthy (headers req !! "authorization") = true
                    /\ locate_token req = split " " h !! 1%nat) as Hloc.
  { intros h Hh Hne.
    assert (truthy (headers req !! "authorization") = true) as Ht
      by (rewrite Hh; cbn; now rewrite bool_decide_eq_false_2).
    split; [exact Ht|]. unfold locate_token, js_or, js_and. now rewrite Hc, Ht, Hh. }
  split; [|split].
  - intros scheme token Hh Hs Ht.
    destruct (Hloc _ Hh) as [_ ->]; [now destruct scheme|].
    change (scheme ++ " " ++ token) with (scheme ++ String " " token).
    now rewrite (split_app_sep _ _ _ Hs), (split_no_sep _ _ Ht).
  - intros h Hh Hne Hs. destruct (Hloc _ Hh Hne) as [Ht Hl].
    apply authenticateToken_no_token; [exact Ht|].
    now rewrite Hl, (split_no_sep _ _ Hs).
  - intros scheme rest Hh Hs.
    destruct (Hloc _ Hh) as [Ht Hl]; [now destruct scheme|].
    apply authenticateToken_no_token; [exact Ht|]. rewrite Hl.
    change (scheme ++ "  " ++ rest) with (scheme ++ String " " (String " " rest)).
    rewrite (split_app_sep _ _ _ Hs). cbn [split].
    now rewrite bool_decide_eq_true_2.
Qed.

(** X22. A token from login opens the guarded routes. Under the token
    service's contract that a token it has just signed for an identity
    verifies to that identity, and given that the token is non-empty and
    has no space: the token a successful login answers with, sent as
    "Bearer <token>" without cookie, passes the authentication guard on
    any route with the user's id and role attached, and reaches the
    handler of every guarded route that lists the user's role. *)
Theorem login_token_opens_guarded_routes req_l req w found phone password :
  endpoint req_l = login phone password ->
  faults w = [] ->
  User_with_phone phone (users w) = Some found ->
  bcrypt_compare password (User.password found) = true ->
  let ident := Identity.mk (User._id found) (User.role found) in
  let token := jwt_sign ident SECRET "7d" (clock w) in
  jwt_verify token SECRET (clock w) = Some ident ->
  token <> "" -> contains " " token = false ->
  headers req !! "authorization" = Some ("Bearer " ++ token) ->
  cookies req !! "jwt_token" = None ->
  app req_l w = (w, Resolved (res_json (JLogin "Login Success" token found)))
  /\ authenticateToken req w = (w, Resolved (Next (with_user ident req)))
  /\ (forall roles,
        (route (endpoint req)).1 = [authenticateToken; authorizeRoles roles] ->
        User.role found ∈ roles ->
        app req w = (route (endpoint req)).2 (with_user ident req) w).
Proof.
  intros El Hf Hp Hc ident token Hv Hne Hs Hh Hck.
  assert (authenticateToken req w = (w, Resolved (Next (with_user ident req)))) as Ha.
  { assert (truthy (headers req !! "authorization") = true) as Ht by now rewrite Hh.
    assert (locate_token req = Some token) as Hl.
    { unfold locate_token, js_or, js_and. rewrite Hck, Ht, Hh. cbn [truthy mbind option_bind].
      change ("Bearer " ++ token) with ("Bearer" ++ String " " token).
      rewrite split_app_sep by reflexivity. now rewrite (split_no_sep _ _ Hs). }
    rewrite (authenticateToken_token req w token Ht Hl Hne). now rewrite Hv. }
  split; [|split; [exact Ha|]].
  - unfold app. rewrite El. cbn [route fst snd run].
    unfold post_login, User_findOne, bind, ret, Date_now.
    rewrite (store_call_answers _ _ Hf), Hp. now rewrite Hc.
  - intros roles Hg Hr. unfold app. rewrite Hg, (run_next _ _ _ _ _ _ _ Ha).
    now rewrite (run_next _ _ _ _ _ _ _
                   (authorizeRoles_granted roles (with_user ident req) ident w eq_refl Hr)).
Qed.

(** ** Vehicles *)

Lemma Vehicle_validate_ok i number type cap driver status now :
  number <> "" -> type <> "" -> status ∈ Vehicle.status_enum ->
  Vehicle_validate (Vehicle.mk i number type cap driver status now) = [].
Proof.
  intros Hn Ht Hs. unfold Vehicle_validate, required, enum. cbn.
  now rewrite !bool_decide_eq_false_2, bool_decide_eq_true_2 by assumption.
Qed.

Lemma Vehicle_validate_number v :
  Vehicle_validate v = [] -> Vehicle.vehicleNumber v <> "".
Proof.
  unfold Vehicle_validate, required. repeat case_bool_decide; [discriminate.. | auto].
Qed.

Lemma get_director_vehicles_all req w :
  faults w = [] ->
  get_director_vehicles req w = (w, Resolved (res_json (JVehicles (vehicles w)))).
Proof.
  intros Hf. unfold get_director_vehicles, Vehicle_find, bind, ret.
  now rewrite (store_call_answers _ _ Hf).
Qed.

(** X23. Adding a vehicle. For a caller authenticated as [director], with
    the store answering: a body with a non-empty vehicle number and type,
    and a status that is absent or one of the three of the schema, is
    answered "Vehicle Added"; the Vehicles collection gains one record,
    last, with the fields of the body and the status "available" when the
    body has none, and the vehicles endpoint then lists it. A body without
    vehicle number makes the handler's promise reject: nothing is answered
    and nothing is stored. *)
Theorem add_vehicle_validates_then_stores req req_v w u body :
  endpoint req = director_add_vehicle body ->
  endpoint req_v = director_vehicles ->
  authenticateToken req w = (w, Resolved (Next (with_user u req))) ->
  authenticateToken req_v w = (w, Resolved (Next (with_user u req_v))) ->
  Identity.role u = "director" ->
  faults w = [] ->
  (forall number type,
     Vehicle.f_vehicleNumber body = Some number -> number <> "" ->
     Vehicle.f_type body = Some type -> type <> "" ->
     default "available" (Vehicle.f_status body) ∈ Vehicle.status_enum ->
     exists w' v,
       app req w = (w', Resolved (res_json (JMessage "Vehicle Added")))
       /\ vehicles w' = (vehicles w ++ [v])%list
       /\ Vehicle.vehicleNumber v = number /\ Vehicle.type v = type
       /\ Vehicle.capacity v = Vehicle.f_capacity body
       /\ Vehicle.driverId v = Vehicle.f_driverId body
       /\ Vehicle.status v = default "available" (Vehicle.f_status body)
       /\ users w' = users w /\ bookings w' = bookings w
       /\ app req_v w' = (w', Resolved (res_json (JVehicles (vehicles w ++ [v])%list))))
  /\ (Vehicle.f_vehicleNumber body = None ->
      exists w' e, app req w = (w', Rejected e) /\ vehicles w' = vehicles w).
Proof.
  intros Ee Ev Ha Hav Hr Hf.
  assert (app req w = post_director_add_vehicle body (with_user u req) w) as Happ.
  { rewrite (app_director req w u); [| now rewrite Ee | exact Ha | exact Hr].
    now rewrite Ee. }
  rewrite Happ. split.
  - intros number type En Hn Et Ht Hs.
    unfold post_director_add_vehicle, new_Vehicle, Vehicle_save_new, bind, ret, fresh,
      Date_now.
    rewrite En, Et. cbn [default from_option id next_id clock with_next_id].
    rewrite Vehicle_validate_ok by assumption.
    rewrite store_call_answers by exact Hf.
    eexists _, _. split; [reflexivity|]. cbn [vehicles users bookings with_vehicles
      with_next_id Vehicle.vehicleNumber Vehicle.type Vehicle.capacity Vehicle.driverId
      Vehicle.status].
    repeat split.
    match goal with
    | |- app req_v ?w1 = _ =>
        rewrite (app_director req_v w1 u);
          [| now rewrite Ev | exact (authenticateToken_same_clock req_v w w1 u Hav eq_refl)
           | exact Hr]
    end.
    rewrite Ev. cbn [route snd]. now rewrite get_director_vehicles_all by exact Hf.
  - intros En.
    unfold post_director_add_vehicle, new_Vehicle, Vehicle_save_new, bind, ret, throw,
      fresh, Date_now.
    rewrite En. cbn [default from_option id next_id clock with_next_id].
    match goal with
    | |- context [match Vehicle_validate ?v with _ => _ end] =>
        destruct (Vehicle_validate v) eqn:Ev'
    end; [|now eexists _, _].
    now apply Vehicle_validate_number in Ev'.
Qed.

(** X24. Updating a vehicle. For a caller authenticated as [director],
    with the store answering, update-vehicle answers "Vehicle Updated"
    for a body of schema paths whatever their values, without validating
    them. The vehicle found under the id takes every path the body
    carries, its creation time like the others, and keeps the paths the
    body does not have; vehicles with another id, users and bookings are
    unchanged; and when no vehicle has the id the world is exactly as it
    was. *)
Theorem update_vehicle_overwrites_given_fields req w u id body :
  endpoint req = director_update_vehicle id body ->
  authenticateToken req w = (w, Resolved (Next (with_user u req))) ->
  Identity.role u = "director" ->
  faults w = [] ->
  exists w',
    app req w = (w', Resolved (res_json (JMessage "Vehicle Updated")))
    /\ users w' = users w /\ bookings w' = bookings w
    /\ length (vehicles w') = length (vehicles w)
    /\ (forall i v, vehicles w !! i = Some v -> Vehicle._id v <> id ->
        vehicles w' !! i = Some v)
    /\ (forall v, List.find (fun v => bool_decide (Vehicle._id v = id)) (vehicles w) = Some v ->
        exists i v', vehicles w !! i = Some v /\ vehicles w' !! i = Some v'
          /\ Vehicle._id v' = Vehicle._id v
          /\ Vehicle.createdAt v'
             = default (Vehicle.createdAt v) (Vehicle.f_createdAt body)
          /\ Vehicle.vehicleNumber v'
             = default (Vehicle.vehicleNumber v) (Vehicle.f_vehicleNumber body)
          /\ Vehicle.type v' = default (Vehicle.type v) (Vehicle.f_type body)
          /\ Vehicle.status v' = default (Vehicle.status v) (Vehicle.f_status body)
          /\ Vehicle.capacity v' = or_else (Vehicle.f_capacity body) (Vehicle.capacity v)
          /\ Vehicle.driverId v' = or_else (Vehicle.f_driverId body) (Vehicle.driverId v))
    /\ ((forall v, v ∈ vehicles w -> Vehicle._id v <> id) -> w' = w).
Proof.
  intros Ee Ha Hr Hf.
  rewrite (app_director req w u); [| now rewrite Ee | exact Ha | exact Hr].
  rewrite Ee. cbn [route snd].
  unfold put_director_update_vehicle, Vehicle_findByIdAndUpdate, bind, ret.
  rewrite (store_call_answers _ _ Hf). cbn zeta.
  eexists. split; [reflexivity|]. cbn [users bookings vehicles with_vehicles].
  split; [reflexivity|]. split; [reflexivity|]. split; [apply length_update_first|].
  split; [|split].
  - intros i v Hi Hne. apply update_first_other; [exact Hi|].
    now apply bool_decide_eq_false_2.
  - intros v Hv.
    destruct (update_first_hit _ (Vehicle_set body) _ _ Hv) as (i & Hi & Hu & _).
    exists i, (Vehicle_set body v). split; [exact Hi|]. split; [exact Hu|].
    cbn. repeat split.
  - intros Hnone. rewrite find_update_first_none; [now destruct w|].
    destruct (List.find _ (vehicles w)) as [v|] eqn:E; [|reflexivity].
    apply find_some in E as [Hin Hv]. apply bool_decide_eq_true_1 in Hv.
    exfalso. exact (Hnone v (proj2 (list_elem_of_In _ _) Hin) Hv).
Qed.

(** ** The paginated listing of users *)



(** ** Registration under any behaviour of the store *)

(** X26. Registration is all or nothing, and always answered. Whatever
    the store does (any script of failures) and whatever the fields, a
    registration is answered 201, 400 or 500. With 201 exactly one user has
    been added, with the requested number and the role [customer]; with 400
    the number was already some user's and nothing is stored; with 500
    nothing is stored. Bookings and vehicles are untouched in all cases. *)
Theorem register_all_or_nothing req w name phone password :
  endpoint req = register name phone password ->
  exists w' r,
    app req w = (w', Resolved r)
    /\ bookings w' = bookings w /\ vehicles w' = vehicles w
    /\ ((statusCode r = 201
         /\ User_with_phone phone (users w) = None
         /\ exists u, users w' = (users w ++ [u])%list
                      /\ User.phoneNumber u = phone /\ User.role u = "customer")
        \/ (statusCode r = 400 /\ users w' = users w
            /\ exists u, User_with_phone phone (users w) = Some u)
        \/ (statusCode r = 500 /\ users w' = users w)).
Proof.
  intros Ee. unfold app. rewrite Ee. cbn [route fst snd run]. clear Ee.
  unfold post_register, User_findOne, User_save_new, new_User, bcrypt_hash_async,
    try_catch, bind, ret, throw, internal_error, store_call, fresh, Date_now.
  destruct w as [us vs bs n c fs].
  cbn [users vehicles bookings faults with_faults with_next_id with_users fst snd].
  destruct (User_with_phone phone us) as [existing|] eqn:Hlookup;
    destruct fs as [|[?|] [|[?|] ?]];
    cbn [users vehicles bookings faults with_faults with_next_id with_users fst snd];
    rewrite ?Hlookup;
    try match goal with
        | |- context [match User_validate ?u with _ => _ end] => destruct (User_validate u)
        end;
    cbn [users vehicles bookings faults with_faults with_next_id with_users fst snd];
    eexists _, _; (split; [reflexivity|]);
    cbn [users vehicles bookings statusCode res_status_json];
    (split; [reflexivity|]); (split; [reflexivity|]);
    first [ right; left; split; [reflexivity|]; split; [reflexivity|]; now eexists
          | right; right; split; reflexivity
          | left; split; [reflexivity|]; split; [reflexivity|];
            eexists; split; [reflexivity|]; split; reflexivity ].
Qed.

End Properties.

(** * The properties at work on the small instance *)

Import Demo.
#[local] Existing Instance Demo.collaborators.

Lemma demo_unique_phones : unique_phones (users world).
Proof. apply unique_phones_NoDup. cbn. apply (bool_decide_unpack _). reflexivity. Qed.

Lemma alice_authenticates ep :
  authenticateToken (bearer ep "alice-token") world
  = (world, Resolved (Next (with_user alice (bearer ep "alice-token")))).
Proof. reflexivity. Qed.

Lemma dana_authenticates ep :
  authenticateToken (bearer ep "dana-token") world
  = (world, Resolved (Next (with_user dana (bearer ep "dana-token")))).
Proof. reflexivity. Qed.

(** A customer's token on [GET /admin/bookings]: 403, world untouched. *)
Lemma role_gate_witness :
  app (bearer admin_bookings "alice-token") world
  = (world, Resolved (res_status_json 403 (JError "Access Denied"))).
Proof.
  destruct (role_gate_rejects_and_admits admin_bookings ["admin"; "director"]
              (bearer admin_bookings "alice-token") world alice
              eq_refl eq_refl (alice_authenticates _)) as (_ & Hdenied & _).
  apply Hdenied. apply (bool_decide_unpack _). reflexivity.
Defined.

(** C2 as the specification states it fails: a request whose only token is a valid
    one in the [jwt_token] cookie, with no [Authorization] header, is not
    authenticated; the guard answers 401 "Invalid JWT". *)
Lemma cookie_alone_is_rejected :
  jwt_verify "alice-token" SECRET (clock world) = Some alice
  /\ authenticateToken (cookie_only my_bookings "alice-token") world
     = (world, Resolved (Respond (res_status_json 401 (JError "Invalid JWT"))))
  /\ app (cookie_only my_bookings "alice-token") world
     = (world, Resolved (res_status_json 401 (JError "Invalid JWT"))).
Proof. repeat split. Qed.

(** The cookie wins over the header, and the header makes the cookie count. *)
Lemma token_from_cookie_witness :
  authenticateToken (cookie_and_header my_bookings "alice-token" "Bearer bob-token") world
  = (world, Resolved (Next (with_user alice
       (cookie_and_header my_bookings "alice-token" "Bearer bob-token")))).
Proof.
  destruct (token_from_cookie_else_header
              (cookie_and_header my_bookings "alice-token" "Bearer bob-token") world
              "Bearer bob-token" eq_refl ltac:(discriminate)) as (_ & _ & _ & Hcookie).
  apply (Hcookie "alice-token" alice); [reflexivity | discriminate | reflexivity].
Defined.



Lemma missing_header_witness :
  app (anonymous my_bookings) world
  = (world, Resolved (res_status_json 401 (JError "Invalid JWT")))
  /\ authenticateToken (bearer my_bookings "") world
     = (world, Resolved (Respond (res_status_json 401 (JError "Token missing")))).
Proof.
  destruct (missing_header_answered_401 (anonymous my_bookings) world eq_refl)
    as (_ & _ & Happ & Hmissing & _).
  split; [exact (Happ ["customer"] eq_refl) | apply Hmissing; reflexivity].
Defined.

(** Registering a phone number that is taken: 400, and still unique. *)
Lemma phone_numbers_witness :
  unique_phones (users (app (anonymous (register "Eve" "9990001111" "pw")) world).1)
  /\ app (anonymous (register "Eve" "9990001111" "pw")) world
     = (world, Resolved (res_status_json 400 (JError "User Exists"))).
Proof.
  destruct (phone_numbers_stay_unique (anonymous (register "Eve" "9990001111" "pw")) world
              demo_unique_phones) as (Hu & _ & Hconflict).
  split; [exact Hu|].
  assert (user_alice ∈ users world) as Hin
    by (apply list_elem_of_In; right; left; reflexivity).
  exact (proj1 (Hconflict eq_refl "Eve" "9990001111" "pw" user_alice Hin eq_refl)).
Defined.

Lemma login_witness :
  exists r, app (anonymous (login "9990001111" "alice-pw")) world = (world, Resolved r)
            /\ statusCode r = 200
            /\ body r = JLogin "Login Success"
                          (jwt_sign (Identity.mk 7 "customer") SECRET "7d" 1000) user_alice.
Proof.
  destruct (login_outcome (anonymous (login "9990001111" "alice-pw")) world
              "9990001111" "alice-pw" eq_refl eq_refl) as (r & E & Hiff & Hok & _).
  exists r. split; [exact E|]. split.
  - apply Hiff. exists user_alice. split; reflexivity.
  - now rewrite (Hok user_alice eq_refl eq_refl).
Defined.

Lemma my_bookings_witness :
  exists own, app (bearer my_bookings "alice-token") world
              = (world, Resolved (res_json (JBookings own)))
              /\ forall b, b ∈ own <-> b ∈ bookings world /\ Booking.customerId b = 7%N.
Proof.
  destruct (my_bookings_exactly_own (bearer my_bookings "alice-token") world alice
              eq_refl (alice_authenticates _) eq_refl eq_refl) as (own & E & _ & Hown).
  exists own. split; [exact E | exact Hown].
Defined.

Lemma update_status_witness :
  exists w', app (bearer (admin_update_status 101 "no-such-status") "dana-token") world
             = (w', Resolved (res_json (JMessage "Status Updated")))
             /\ bookings w' !! 1%nat
                = Some (Booking.set_status "no-such-status" (trip 101 8 (Some 900%float) "pending"))
             /\ bookings w' !! 0%nat = bookings world !! 0%nat.
Proof.
  destruct (update_status_overwrites_only_status
              (bearer (admin_update_status 101 "no-such-status") "dana-token") world dana
              101 "no-such-status" eq_refl (dana_authenticates _)
              ltac:(apply (bool_decide_unpack _); reflexivity) eq_refl)
    as (w' & E & _ & _ & _ & Hother & _).
  exists w'. split; [exact E|]. split.
  - assert (w' = (app (bearer (admin_update_status 101 "no-such-status") "dana-token")
                      world).1) as -> by now rewrite E.
    reflexivity.
  - apply (Hother 0%nat _ eq_refl). discriminate.
Defined.


(** Amounts are doubles: past 2^53 a total rounds, and the total of 0.1
    and 0.2 (the doubles nearest to them, written in hexadecimal) is the
    double after the one nearest to 0.3. *)
Example revenue_rounds :
  app (bearer director_revenue "dana-token") (with_bookings large_ledger world)
  = (with_bookings large_ledger world,
     Resolved (res_json (JRevenue 2 9007199254740992))).
Proof. reflexivity. Qed.

Example revenue_of_fractions :
  let w := with_bookings [trip 100 7 (Some 0x1.999999999999ap-4%float) "completed";
                          trip 101 8 (Some 0x1.999999999999ap-3%float) "completed"] world in
  app (bearer director_revenue "dana-token") w
  = (w, Resolved (res_json (JRevenue 2 0x1.3333333333334p-2)))
  /\ 0x1.3333333333334p-2%float <> 0x1.3333333333333p-2%float.
Proof.
  split; [reflexivity|].
  intros E. discriminate (f_equal (Leibniz.eqb 0x1.3333333333333p-2%float) E).
Qed.

(** A stored -0 or an absent amount adds nothing, and the total of
    nothing is 0. *)
Example revenue_of_zeros :
  let w := with_bookings [trip 100 7 (Some neg_zero) "completed";
                          trip 101 8 None "completed"] world in
  app (bearer director_revenue "dana-token") w = (w, Resolved (res_json (JRevenue 2 0))).
Proof. reflexivity. Qed.

(** [PUT /director/toggle-user/7] while the store is down: no answer. *)
Lemma store_failure_witness :
  exists w' e,
    put_director_toggle_user 7 (with_user dana (bearer (director_toggle_user 7) "dana-token"))
      world_store_down
    = (w', Rejected e).
Proof.
  exact (store_failure_answered_only_where_caught (director_toggle_user 7)
           (with_user dana (bearer (director_toggle_user 7) "dana-token"))
           world_store_down "connection lost" [] eq_refl (ex_intro _ dana eq_refl)).
Defined.

(** The same request through the whole application, and a registration in
    the same conditions. *)
Example toggle_user_store_down :
  app (bearer (director_toggle_user 7) "dana-token") world_store_down
  = (world, Rejected (StoreError "connection lost")).
Proof. reflexivity. Qed.

Example register_store_down :
  app (anonymous (register "Eve" "9990003333" "pw")) world_store_down
  = (world, Resolved (res_status_json 500 (JError "connection lost"))).
Proof. reflexivity. Qed.

(** ** Scenarios of the specification *)

(** Registering the same phone number twice: the second call is refused. *)
Example register_twice :
  let req := anonymous (register "Eve" "9990001111x" "pw") in
  exists w1, app req world = (w1, Resolved (res_status_json 201 (JMessage "Customer Registered")))
             /\ app req w1 = (w1, Resolved (res_status_json 400 (JError "User Exists"))).
Proof. eexists. split; reflexivity. Qed.

(** Toggling a user twice gives the active flag its first value back. *)
Example toggle_twice :
  let req := bearer (director_toggle_user 8) "dana-token" in
  let w1 := (app req world).1 in
  (User.isActive <$> User_with_id 8 (users world)) = Some true
  /\ (User.isActive <$> User_with_id 8 (users w1)) = Some false
  /\ app req w1 = (world, Resolved (res_json (JMessage "User status updated"))).
Proof. repeat split. Qed.

(** ** The further properties on the small instance *)

Lemma bob_authenticates ep :
  authenticateToken (bearer ep "bob-token") world
  = (world, Resolved (Next (with_user bob (bearer ep "bob-token")))).
Proof. reflexivity. Qed.

Lemma dana_is_staff : Identity.role dana ∈ ["admin"; "director"].
Proof. apply (bool_decide_unpack _). reflexivity. Qed.

Lemma demo_hash_not_empty password : forall salt : N, bcrypt_hash password 10 salt <> "".
Proof. intros salt. cbn. discriminate. Qed.

Lemma handler_runs_witness :
  exists token u,
    jwt_verify token SECRET (clock world) = Some u
    /\ Identity.role u ∈ ["admin"; "director"]
    /\ app (bearer admin_bookings "dana-token") world
       = get_admin_bookings (with_user u (bearer admin_bookings "dana-token")) world.
Proof.
  destruct (handler_runs_only_for_verified_allowed_role
              (bearer admin_bookings "dana-token") world ["admin"; "director"] eq_refl)
    as [(r & E & Hr) | (token & u & _ & _ & _ & Hv & Hin & E)].
  - exfalso. revert E Hr. cbn. intros [= <-]. unfold guard_answers.
    rewrite !elem_of_cons, elem_of_nil. intros [|[|[|[|[]]]]]; discriminate.
  - now exists token, u.
Defined.

(** A driver's token on [GET /director/vehicles]. *)
Lemma other_roles_witness :
  @app issuing_collaborators (bearer director_vehicles "dave-token") world
  = (world, Resolved (res_status_json 403 (JError "Access Denied"))).
Proof.
  apply (@other_roles_are_refused_everywhere issuing_collaborators
           (bearer director_vehicles "dave-token") world dave);
    [discriminate | reflexivity |].
  cbn. rewrite !elem_of_cons, elem_of_nil. intros [|[|[|[]]]]; discriminate.
Defined.

Lemma statuses_witness :
  statusCode (res_status_json 401 (JError "Invalid JWT")) ∈ [200; 201; 400; 401; 403; 500]
  /\ (route (endpoint (anonymous my_bookings))).1 <> [].
Proof.
  destruct (statuses_and_refusals (anonymous my_bookings) world world
              (res_status_json 401 (JError "Invalid JWT")) eq_refl) as [Hin Href].
  split; [exact Hin|]. apply Href. now left.
Defined.

Lemma register_witness :
  exists w' u,
    app (anonymous (register "Eve" "9990003333" "pw")) world
    = (w', Resolved (res_status_json 201 (JMessage "Customer Registered")))
    /\ users w' = (users world ++ [u])%list
    /\ User.role u = "customer" /\ User.isActive u = true.
Proof.
  destruct (register_creates_customer (anonymous (register "Eve" "9990003333" "pw")) world
              "Eve" "9990003333" "pw" eq_refl eq_refl eq_refl
              ltac:(discriminate) ltac:(discriminate) (demo_hash_not_empty "pw"))
    as (w' & u & E & Hu & _ & _ & _ & Hr & Hact & _).
  now exists w', u.
Defined.

Lemma register_then_login_witness :
  exists w' u,
    app (anonymous (register "Eve" "9990003333" "pw")) world
    = (w', Resolved (res_status_json 201 (JMessage "Customer Registered")))
    /\ User.name u = "Eve"
    /\ app (anonymous (login "9990003333" "pw")) w'
       = (w', Resolved (res_json (JLogin "Login Success"
                 (jwt_sign (Identity.mk (User._id u) "customer") SECRET "7d" (clock w'))
                 u))).
Proof.
  destruct (register_then_login (anonymous (register "Eve" "9990003333" "pw"))
              (anonymous (login "9990003333" "pw")) world
              "Eve" "9990003333" "pw" eq_refl eq_refl eq_refl eq_refl
              ltac:(discriminate) ltac:(discriminate) (demo_hash_not_empty "pw")
              (fun _ => eq_refl))
    as (w' & u & E & Hn & _ & El & _).
  now exists w', u.
Defined.

Lemma director_creates_witness :
  exists w' a,
    app (bearer (director_create_admin "Asha" "9000000002" "pw") "dana-token") world
    = (w', Resolved (res_json (JMessage "Admin Created Successfully")))
    /\ users w' = (users world ++ [a])%list /\ User.role a = "admin".
Proof.
  destruct (director_creates_admin_and_driver
              (bearer (director_create_admin "Asha" "9000000002" "pw") "dana-token")
              world dana "Asha" "9000000002" "pw"
              (dana_authenticates _) eq_refl eq_refl eq_refl
              ltac:(discriminate) ltac:(discriminate) (demo_hash_not_empty "pw"))
    as [Hadmin _].
  destruct (Hadmin eq_refl) as (w' & a & E & Hu & _ & _ & Hr & _).
  now exists w', a.
Defined.

Lemma book_witness :
  exists w' b,
    app (bearer (book demo_trip) "alice-token") world
    = (w', Resolved (res_status_json 201 (JMessage "Booking Created")))
    /\ bookings w' = (bookings world ++ [b])%list
    /\ Booking.customerId b = 7%N
    /\ Booking.customerName b = Some "Alice"
    /\ Booking.customerPhone b = Some "9990001111"
    /\ Booking.status b = "pending".
Proof.
  destruct (book_creates_pending_booking (bearer (book demo_trip) "alice-token") world
              alice user_alice demo_trip eq_refl (alice_authenticates _) eq_refl eq_refl
              eq_refl)
    as (w' & b & E & Hb & Hc & Hn & Hp & Hs & _).
  now exists w', b.
Defined.

Lemma book_then_my_bookings_witness :
  exists w' b,
    app (bearer (book demo_trip) "alice-token") world
    = (w', Resolved (res_status_json 201 (JMessage "Booking Created")))
    /\ app (bearer my_bookings "alice-token") w'
       = (w', Resolved (res_json (JBookings
                [trip 100 7 (Some 1500%float) "completed"; trip 102 7 None "completed"; b])))
    /\ app (bearer my_bookings "bob-token") w'
       = (w', Resolved (res_json (JBookings
                [trip 101 8 (Some 900%float) "pending"; trip 103 8 (Some 2500%float) "completed"]))).
Proof.
  exact (book_then_my_bookings (bearer (book demo_trip) "alice-token")
           (bearer my_bookings "alice-token") (bearer my_bookings "bob-token")
           world alice bob user_alice demo_trip eq_refl eq_refl eq_refl
           (alice_authenticates _) (alice_authenticates _) (bob_authenticates _)
           eq_refl eq_refl ltac:(discriminate) eq_refl eq_refl).
Defined.

(** Booking while the store is down: 500, and no booking. *)
Lemma book_all_or_nothing_witness :
  exists w' r,
    app (bearer (book demo_trip) "alice-token") world_store_down = (w', Resolved r)
    /\ ((statusCode r = 201
         /\ exists b, bookings w' = (bookings world_store_down ++ [b])%list
                      /\ Booking.customerId b = 7%N)
        \/ (statusCode r = 500 /\ bookings w' = bookings world_store_down)).
Proof.
  destruct (book_all_or_nothing (bearer (book demo_trip) "alice-token") world_store_down
              alice demo_trip eq_refl
              (authenticateToken_same_clock (bearer (book demo_trip) "alice-token") world
                 world_store_down alice (alice_authenticates _) eq_refl)
              eq_refl)
    as (w' & r & E & _ & _ & Hcases).
  now exists w', r.
Defined.

Lemma toggle_twice_witness :
  exists w1,
    app (bearer (director_toggle_user 8) "dana-token") world
    = (w1, Resolved (res_json (JMessage "User status updated")))
    /\ User_with_id 8 (users w1) = Some (User.set_isActive false user_bob)
    /\ app (bearer (director_toggle_user 8) "dana-token") w1
       = (world, Resolved (res_json (JMessage "User status updated"))).
Proof.
  exact (toggle_user_twice_restores (bearer (director_toggle_user 8) "dana-token") world
           dana 8 user_bob eq_refl (dana_authenticates _) eq_refl eq_refl eq_refl).
Defined.

Lemma toggle_frame_witness :
  exists w1,
    app (bearer (director_toggle_user 8) "dana-token") world
    = (w1, Resolved (res_json (JMessage "User status updated")))
    /\ users w1 !! 1%nat = Some user_alice
    /\ bookings w1 = bookings world.
Proof.
  destruct (toggle_user_changes_one_flag (bearer (director_toggle_user 8) "dana-token")
              world dana 8 user_bob eq_refl (dana_authenticates _) eq_refl eq_refl eq_refl)
    as (w1 & E & _ & Hother & _ & Hb & _).
  exists w1. split; [exact E|]. split; [|exact Hb].
  apply (Hother 1%nat user_alice eq_refl). discriminate.
Defined.

Lemma toggle_unknown_witness :
  exists msg,
    app (bearer (director_toggle_user 55) "dana-token") world
    = (world, Rejected (TypeError msg)).
Proof.
  exact (toggle_unknown_user_sends_nothing (bearer (director_toggle_user 55) "dana-token")
           world dana 55 eq_refl (dana_authenticates _) eq_refl eq_refl eq_refl).
Defined.

Lemma deactivated_login_witness :
  exists w1,
    app (bearer (director_toggle_user 7) "dana-token") world
    = (w1, Resolved (res_json (JMessage "User status updated")))
    /\ app (anonymous (login "9990001111" "alice-pw")) w1
       = (w1, Resolved (res_json (JLogin "Login Success"
                 (jwt_sign (Identity.mk 7 "customer") SECRET "7d" 1000)
                 (User.set_isActive false user_alice))))
    /\ authenticateToken (bearer my_bookings "alice-token") w1
       = (w1, Resolved (Next (with_user alice (bearer my_bookings "alice-token")))).
Proof.
  destruct (deactivated_user_still_logs_in (bearer (director_toggle_user 7) "dana-token")
              (anonymous (login "9990001111" "alice-pw")) world dana user_alice
              "9990001111" "alice-pw" eq_refl (dana_authenticates _) eq_refl eq_refl
              eq_refl eq_refl eq_refl eq_refl eq_refl)
    as (w1 & E & _ & El & Hauth).
  exists w1. split; [exact E|]. split; [exact El|].
  exact (Hauth _ _ (alice_authenticates my_bookings)).
Defined.

Lemma update_status_unknown_witness :
  app (bearer (admin_update_status 999 "approved") "dana-token") world
  = (world, Resolved (res_json (JMessage "Status Updated"))).
Proof.
  apply (update_status_unknown_id_is_silent
           (bearer (admin_update_status 999 "approved") "dana-token") world dana
           999 "approved" eq_refl (dana_authenticates _) dana_is_staff eq_refl).
  intros b Hb. cbn in Hb. rewrite !elem_of_cons, elem_of_nil in Hb.
  destruct Hb as [-> | [-> | [-> | [-> | []]]]]; discriminate.
Defined.

Lemma last_write_wins_witness :
  exists w1,
    app (bearer (admin_update_status 101 "approved") "dana-token") world
    = (w1, Resolved (res_json (JMessage "Status Updated")))
    /\ app (bearer (admin_update_status 101 "cancelled") "dana-token") w1
       = app (bearer (admin_update_status 101 "cancelled") "dana-token") world.
Proof.
  exact (update_status_last_write_wins
           (bearer (admin_update_status 101 "approved") "dana-token")
           (bearer (admin_update_status 101 "cancelled") "dana-token")
           world dana dana 101 "approved" "cancelled" eq_refl eq_refl
           (dana_authenticates _) (dana_authenticates _) dana_is_staff dana_is_staff
           eq_refl).
Defined.


(** Completing a booking stored before a completed one: its amount is
    added earlier, and the total need not move by that amount. Here it
    moves by 2 for an amount of 1. *)
Example completing_before_a_large_amount :
  exists w1,
    app (bearer director_revenue "dana-token") (with_bookings large_ledger world)
    = (with_bookings large_ledger world,
       Resolved (res_json (JRevenue 2 9007199254740992)))
    /\ app (bearer (admin_update_status 101 "completed") "dana-token")
           (with_bookings large_ledger world)
       = (w1, Resolved (res_json (JMessage "Status Updated")))
    /\ app (bearer director_revenue "dana-token") w1
       = (w1, Resolved (res_json (JRevenue 3 9007199254740994))).
Proof. eexists. split; [reflexivity|]. split; reflexivity. Qed.

Lemma amounts_witness :
  amounts_are_numbers (bookings (app (bearer (book demo_trip) "alice-token") world).1)
  /\ length (bookings (app (bearer (book demo_trip) "alice-token") world).1) = 5%nat.
Proof.
  split; [|reflexivity].
  apply (amounts_stay_numbers (bearer (book demo_trip) "alice-token") world).
  - repeat constructor; intros E; discriminate (f_equal (fun a => a ≫= Some ∘ is_nan) E).
  - intros body [= <-] E. discriminate (f_equal (fun a => a ≫= Some ∘ is_nan) E).
Defined.

Lemma booking_revenue_witness :
  exists w1,
    app (bearer (book demo_trip) "alice-token") world
    = (w1, Resolved (res_status_json 201 (JMessage "Booking Created")))
    /\ app (bearer director_revenue "dana-token") w1
       = (w1, Resolved (res_json (JRevenue 3 4000))).
Proof.
  destruct (booking_leaves_revenue_unchanged (bearer (book demo_trip) "alice-token")
              (bearer director_revenue "dana-token") world alice dana user_alice demo_trip
              eq_refl eq_refl (alice_authenticates _) (dana_authenticates _)
              eq_refl eq_refl eq_refl eq_refl)
    as (w1 & totals & E0 & E1 & E2).
  exists w1. split; [exact E1|].
  assert (totals = JRevenue 3 4000) as <-.
  { revert E0. cbn. intros [= <-]. reflexivity. }
  exact E2.
Defined.

Lemma staff_listings_witness :
  app (bearer admin_bookings "dana-token") world
  = (world, Resolved (res_json (JBookings (bookings world))))
  /\ exists found,
       app (bearer (admin_search "9990001111") "dana-token") world
       = (world, Resolved (res_json (JBookings found)))
       /\ forall b, b ∈ found <->
                    b ∈ bookings world /\ Booking.customerPhone b = Some "9990001111".
Proof.
  split.
  - exact (proj1 (staff_listings (bearer admin_bookings "dana-token") world dana
                    (dana_authenticates _) dana_is_staff eq_refl) eq_refl).
  - exact (proj2 (staff_listings (bearer (admin_search "9990001111") "dana-token") world
                    dana (dana_authenticates _) dana_is_staff eq_refl)
                 "9990001111" eq_refl).
Defined.

(** "Token alice-token" is read like "Bearer alice-token"; "alice-token"
    alone is not. *)
Lemma header_witness :
  locate_token (basic_header my_bookings "Token alice-token") = Some "alice-token"
  /\ authenticateToken (basic_header my_bookings "alice-token") world
     = (world, Resolved (Respond (res_status_json 401 (JError "Token missing")))).
Proof.
  split.
  - destruct (header_is_split_on_spaces (basic_header my_bookings "Token alice-token")
                world eq_refl) as (Hword & _ & _).
    exact (Hword "Token" "alice-token" eq_refl eq_refl eq_refl).
  - destruct (header_is_split_on_spaces (basic_header my_bookings "alice-token")
                world eq_refl) as (_ & Hnone & _).
    apply (Hnone "alice-token" eq_refl); [discriminate | reflexivity].
Defined.

Lemma login_token_witness :
  @app issuing_collaborators (anonymous (login "9990001111" "alice-pw")) world
  = (world, Resolved (res_json (JLogin "Login Success" "alice-token" user_alice)))
  /\ @app issuing_collaborators (bearer my_bookings "alice-token") world
     = get_my_bookings (with_user alice (bearer my_bookings "alice-token")) world.
Proof.
  destruct (@login_token_opens_guarded_routes issuing_collaborators
              (anonymous (login "9990001111" "alice-pw"))
              (bearer my_bookings "alice-token") world user_alice
              "9990001111" "alice-pw" eq_refl eq_refl eq_refl eq_refl eq_refl
              ltac:(discriminate) eq_refl eq_refl eq_refl)
    as (El & _ & Hopen).
  split; [exact El|].
  apply (Hopen ["customer"] eq_refl). apply (bool_decide_unpack _). reflexivity.
Defined.

Lemma add_vehicle_witness :
  exists w' v,
    app (bearer (director_add_vehicle demo_van) "dana-token") world
    = (w', Resolved (res_json (JMessage "Vehicle Added")))
    /\ vehicles w' = [v] /\ Vehicle.status v = "available"
    /\ app (bearer director_vehicles "dana-token") w'
       = (w', Resolved (res_json (JVehicles [v]))).
Proof.
  destruct (add_vehicle_validates_then_stores
              (bearer (director_add_vehicle demo_van) "dana-token")
              (bearer director_vehicles "dana-token") world dana demo_van
              eq_refl eq_refl (dana_authenticates _) (dana_authenticates _)
              eq_refl eq_refl) as [Hok _].
  destruct (Hok "AP07-1234" "Van" eq_refl ltac:(discriminate) eq_refl ltac:(discriminate)
              ltac:(apply (bool_decide_unpack _); reflexivity))
    as (w' & v & E & Hv & _ & _ & _ & _ & Hs & _ & _ & Hl).
  now exists w', v.
Defined.

Lemma update_vehicle_witness :
  exists w',
    app (bearer (director_update_vehicle 51 demo_repaint) "dana-token")
        (with_vehicles demo_fleet world)
    = (w', Resolved (res_json (JMessage "Vehicle Updated")))
    /\ vehicles w'
       = [Vehicle.mk 50 "AP07-1234" "Van" (Some 12%float) None "available" 40;
          Vehicle.mk 51 "AP09-4321" "Bus" (Some 40%float) (Some 9%N) "being repainted" 5]
    /\ users w' = users world /\ bookings w' = bookings world.
Proof.
  destruct (update_vehicle_overwrites_given_fields
              (bearer (director_update_vehicle 51 demo_repaint) "dana-token")
              (with_vehicles demo_fleet world) dana
              51 demo_repaint eq_refl
              (authenticateToken_same_clock _ world (with_vehicles demo_fleet world) dana
                 (dana_authenticates _) eq_refl)
              eq_refl eq_refl)
    as (w' & E & Hu & Hb & Hlen & Hother & Hhit & _).
  exists w'. split; [exact E|]. split; [|split; [exact Hu | exact Hb]].
  destruct (Hhit (Vehicle.mk 51 "AP09-4321" "Bus" (Some 40%float) (Some 9%N) "booked" 41)
              eq_refl)
    as (i & v' & Hi & Hi' & Hid & Hcreated & Hnumber & Htype & Hstatus & Hcap & Hdriver).
  destruct i as [|[|i]]; [discriminate Hi| |destruct i; discriminate Hi].
  pose proof (Hother 0%nat _ eq_refl ltac:(discriminate)) as H0.
  destruct (vehicles w') as [|v0 [|v1 [|v2 vs]]]; try discriminate Hlen.
  cbn in H0, Hi'. injection H0 as ->. injection Hi' as ->.
  destruct v' as [i number type cap driver status created].
  cbn in Hid, Hcreated, Hnumber, Htype, Hstatus, Hcap, Hdriver.
  now subst.
Defined.

(** [POST /director/add-vehicle] with an empty body: the save rejects,
    naming [type] and then [vehicleNumber]; nothing is answered. *)
Example add_vehicle_empty_body :
  app (bearer (director_add_vehicle (Vehicle.mkFields None None None None None None))
              "dana-token") world
  = (with_next_id 201 world,
     Rejected (ValidationError "Vehicle"
                 [("type", "Path `type` is required.");
                  ("vehicleNumber", "Path `vehicleNumber` is required.")])).
Proof. reflexivity. Qed.

(** Without a vehicle under the id, nothing changes. *)
Example update_vehicle_unknown_id :
  app (bearer (director_update_vehicle 300 demo_repaint) "dana-token") world
  = (world, Resolved (res_json (JMessage "Vehicle Updated"))).
Proof. reflexivity. Qed.


Lemma register_all_or_nothing_witness :
  exists w' r,
    app (anonymous (register "Eve" "9990001111" "pw")) world_store_down
    = (w', Resolved r)
    /\ bookings w' = bookings world_store_down.
Proof.
  destruct (register_all_or_nothing (anonymous (register "Eve" "9990001111" "pw"))
              world_store_down "Eve" "9990001111" "pw" eq_refl)
    as (w' & r & E & Hb & _).
  now exists w', r.
Defined.
